(** * afterpaths: source adapters and session normalisation

    A shallow embedding of [afterpaths/sources/base.py] and
    [afterpaths/sources/cursor.py], and the properties of the session
    model, the Cursor adapter and the adapter registry.

    Conventions of the embedding.
    - A Python value decoded from JSON is a [json]; [None] is [JNull].
      JSON numbers are the integers.
    - A Python [str] is a [string] whose characters are the code points
      below 256, one [ascii] each.
    - A Python [dict] is an association list in insertion order.  The dicts
      built by [json.loads] have distinct keys, so a lookup takes the first
      binding.
    - [json.loads] is a function from a text to the document it returns, or
      to nothing when it raises [JSONDecodeError]; the texts on which it
      raises any other exception are outside the embedding.
    - A call that can raise returns a [result]; the code that talks to
      SQLite runs in the monad [M], which also records the connections it
      opens and closes. *)

From Stdlib Require Import List String Ascii ZArith Bool Lia.
From Stdlib Require Import Permutation Sorted DecimalString.
Import ListNotations.
Open Scope string_scope.

(* ================================================================== *)
(** * Python values *)

#[local] Unset Elimination Schemes.
Inductive json : Type :=
| JNull
| JBool (b : bool)
| JInt (z : Z)
| JStr (s : string)
| JArr (l : list json)
| JObj (m : list (string * json)).
#[local] Set Elimination Schemes.

Module Py.

(** [bool(v)]: the truth value the [if v:] tests use. *)
Definition truthy (v : json) : bool :=
  match v with
  | JNull => false
  | JBool b => b
  | JInt z => negb (z =? 0)%Z
  | JStr s => negb (s =? "")
  | JArr l => match l with [] => false | _ :: _ => true end
  | JObj m => match m with [] => false | _ :: _ => true end
  end.

(** [v == s] for a string literal [s]. *)
Definition eq_str (v : json) (s : string) : bool :=
  match v with
  | JStr t => t =? s
  | _ => false
  end.

(** [d.get(k)] and [d.get(k, default)] on a dict. *)
Fixpoint lookup (m : list (string * json)) (k : string) : option json :=
  match m with
  | [] => None
  | (k', v) :: rest => if k' =? k then Some v else lookup rest k
  end.

Definition dict_get (m : list (string * json)) (k : string) : json :=
  match lookup m k with Some v => v | None => JNull end.

Definition dict_get_default (m : list (string * json)) (k : string) (d : json) : json :=
  match lookup m k with Some v => v | None => d end.

(** [str.lower()] on code points below 256: A-Z, and the upper-case
    letters of the Latin-1 block (0xC0-0xDE without 0xD7). *)
Definition lower_char (c : ascii) : ascii :=
  let n := nat_of_ascii c in
  if ((65 <=? n) && (n <=? 90))%nat then ascii_of_nat (n + 32)
  else if ((192 <=? n) && (n <=? 222) && negb (n =? 215))%nat then ascii_of_nat (n + 32)
  else c.

Fixpoint lower (s : string) : string :=
  match s with
  | EmptyString => EmptyString
  | String c rest => String (lower_char c) (lower rest)
  end.

(** [s.startswith(p)]. *)
Definition startswith (s p : string) : bool := String.prefix p s.

(** [s[:n]]. *)
Definition take (n : nat) (s : string) : string := substring 0 n s.

(** [str(z)] for an int. *)
Definition str_of_int (z : Z) : string := NilZero.string_of_int (Z.to_int z).
Definition str_of_nat (n : nat) : string := str_of_int (Z.of_nat n).

(** [repr(s)] for a str. *)
Definition squote : ascii := ascii_of_nat 39.
Definition dquote : ascii := ascii_of_nat 34.
Definition backslash : ascii := ascii_of_nat 92.

Fixpoint has_char (c : ascii) (s : string) : bool :=
  match s with
  | EmptyString => false
  | String c' rest => Ascii.eqb c c' || has_char c rest
  end.

Definition hex_digit (n : nat) : ascii :=
  match String.get n "0123456789abcdef" with
  | Some c => c
  | None => "0"%char
  end.

Definition repr_char (q c : ascii) : string :=
  let n := nat_of_ascii c in
  if Ascii.eqb c backslash then String backslash (String backslash "")
  else if Ascii.eqb c q then String backslash (String q "")
  else if (n =? 9)%nat then String backslash "t"
  else if (n =? 10)%nat then String backslash "n"
  else if (n =? 13)%nat then String backslash "r"
  else if ((n <? 32) || ((127 <=? n) && (n <=? 160)) || (n =? 173))%nat
       then String backslash (String "x" (String (hex_digit (n / 16)) (String (hex_digit (n mod 16)) "")))
  else String c "".

Fixpoint repr_chars (q : ascii) (s : string) : string :=
  match s with
  | EmptyString => EmptyString
  | String c rest => repr_char q c ++ repr_chars q rest
  end.

Definition repr_str (s : string) : string :=
  let q := if has_char squote s && negb (has_char dquote s) then dquote else squote in
  String q (repr_chars q s ++ String q "").

(** [repr(v)] and [str(v)]; an f-string field [{v}] is [str(v)]. *)
Fixpoint repr (v : json) : string :=
  match v with
  | JNull => "None"
  | JBool true => "True"
  | JBool false => "False"
  | JInt z => str_of_int z
  | JStr s => repr_str s
  | JArr l => "[" ++ String.concat ", " (map repr l) ++ "]"
  | JObj m =>
      "{" ++ String.concat ", "
               (map (fun kv => match kv with
                               | (k, x) => repr_str k ++ ": " ++ repr x
                               end) m) ++ "}"
  end.

Definition str (v : json) : string :=
  match v with
  | JStr s => s
  | _ => repr v
  end.

End Py.

(* ================================================================== *)
(** * Exceptions and loops *)

Inductive exn : Type :=
| SqliteError        (* sqlite3.Error and its subclasses *)
| AttributeError
| TypeError
| KeyError.

Inductive result (A : Type) : Type :=
| Ok (a : A)
| Raise (e : exn).
Arguments Ok {A} a.
Arguments Raise {A} e.

Definition bind {A B : Type} (r : result A) (k : A -> result B) : result B :=
  match r with
  | Ok a => k a
  | Raise e => Raise e
  end.

Declare Scope result_scope.
Delimit Scope result_scope with result.
Notation "x <- c ;; k" := (bind c (fun x => k))
  (at level 61, c at next level, right associativity) : result_scope.
Open Scope result_scope.

(** [for x in l: body], the loop state threaded through; an exception in the
    body ends the loop. *)
Fixpoint for_each {A S : Type} (body : A -> S -> result S) (l : list A) (s : S)
  : result S :=
  match l with
  | [] => Ok s
  | x :: rest => s' <- body x s ;; for_each body rest s'
  end.

(** [enumerate(l)]. *)
Definition enumerate {A : Type} (l : list A) : list (nat * A) :=
  combine (seq 0 (List.length l)) l.

Module Iter.

(** What [for x in v] runs over: the items of a list, the characters of a
    str, the keys of a dict; anything else is not iterable. *)
Definition chars (s : string) : list json :=
  map (fun c => JStr (String c "")) (list_ascii_of_string s).

Definition iter (v : json) : result (list json) :=
  match v with
  | JArr l => Ok l
  | JStr s => Ok (chars s)
  | JObj m => Ok (map (fun kv => JStr (fst kv)) m)
  | _ => Raise TypeError
  end.

(** [v.items()]. *)
Definition items (v : json) : result (list (string * json)) :=
  match v with
  | JObj m => Ok m
  | _ => Raise AttributeError
  end.

(** [v[0]] for a truthy [v]. *)
Definition first (v : json) : result json :=
  match v with
  | JArr (x :: _) => Ok x
  | JStr (String c _) => Ok (JStr (String c ""))
  | JObj _ => Raise KeyError
  | _ => Raise TypeError
  end.

End Iter.

(** A dict keyed by decoded values, as [_get_chat_data] builds it. *)
Module Dict.

Definition t : Type := list (json * json).

Definition hashable (k : json) : bool :=
  match k with
  | JArr _ | JObj _ => false
  | _ => true
  end.

(** [k1 == k2] on hashable keys: [True == 1] and [False == 0]. *)
Definition num (k : json) : option Z :=
  match k with
  | JBool b => Some (if b then 1 else 0)%Z
  | JInt z => Some z
  | _ => None
  end.

Definition key_eqb (k1 k2 : json) : bool :=
  match k1, k2 with
  | JNull, JNull => true
  | JStr a, JStr b => a =? b
  | _, _ =>
      match num k1, num k2 with
      | Some a, Some b => (a =? b)%Z
      | _, _ => false
      end
  end.

(** [d[k] = v]: an equal key keeps its place and its key object. *)
Fixpoint put (d : t) (k v : json) : t :=
  match d with
  | [] => [(k, v)]
  | (k', v') :: rest =>
      if key_eqb k' k then (k', v) :: rest else (k', v') :: put rest k v
  end.

Definition set_item (d : t) (k v : json) : result t :=
  if hashable k then Ok (put d k v) else Raise TypeError.

Fixpoint find (d : t) (k : json) : option json :=
  match d with
  | [] => None
  | (k', v) :: rest => if key_eqb k' k then Some v else find rest k
  end.

(** [k in d]. *)
Definition contains (d : t) (k : json) : result bool :=
  if hashable k
  then Ok (match find d k with Some _ => true | None => false end)
  else Raise TypeError.

(** [d[k]]. *)
Definition get_item (d : t) (k : json) : result json :=
  if hashable k
  then match find d k with Some v => Ok v | None => Raise KeyError end
  else Raise TypeError.

Definition is_empty (d : t) : bool :=
  match d with [] => true | _ :: _ => false end.

End Dict.

(* ================================================================== *)
(** * base.py: the session model *)

Module Base.

Record SessionEntry : Type := mkSessionEntry {
  role : string;
  content : json;
  timestamp : json;
  tool_name : json;
  tool_input : json;
  is_error : bool;
  model : json
}.

(** [SessionEntry(role=..., content=..., timestamp=...)], the other fields
    at their defaults. *)
Definition text_entry (r : string) (c ts : json) : SessionEntry :=
  mkSessionEntry r c ts JNull JNull false JNull.

(** [SessionEntry(role=..., content=..., timestamp=..., tool_name=...,
    tool_input=...)]. *)
Definition tool_entry (r : string) (c ts tn ti : json) : SessionEntry :=
  mkSessionEntry r c ts tn ti false JNull.

(** [modified] is a [datetime]; it is kept as the timestamp it was made
    from, which orders the same way. *)
Definition datetime : Type := Z.
Definition fromtimestamp (t : Z) : datetime := t.

Record SessionInfo : Type := mkSessionInfo {
  session_id : json;
  source : string;
  project : string;
  path : string;
  modified : datetime;
  size : Z;
  summary : json
}.

(** The [session_type] property. *)
Definition session_type (self : SessionInfo) : result string :=
  match session_id self with
  | JStr id => if Py.startswith id "agent-" then Ok "agent" else Ok "main"
  | _ => Raise AttributeError
  end.

End Base.

(* ================================================================== *)
(** * Calls that reach SQLite *)

(** The connections a call opens and closes, in order. *)
Inductive event : Type :=
| Connect (p : string)
| Close (p : string).

Definition trace : Type := list event.

(** A computation that may raise, with the events it has caused; the events
    caused before an exception stay. *)
Definition M (A : Type) : Type := (result A * trace)%type.

Definition retM {A : Type} (a : A) : M A := (Ok a, []).

Definition bindM {A B : Type} (m : M A) (k : A -> M B) : M B :=
  match m with
  | (Ok a, t) => let (r, t') := k a in (r, (t ++ t')%list)
  | (Raise e, t) => (Raise e, t)
  end.

Definition lift {A : Type} (r : result A) : M A := (r, []).

Definition emit (e : event) : M unit := (Ok tt, [e]).

(** [try: body / except sqlite3.Error: handler]. *)
Definition except_sqlite {A : Type} (body handler : M A) : M A :=
  match body with
  | (Raise SqliteError, t) => let (r, t') := handler in (r, (t ++ t')%list)
  | out => out
  end.

Declare Scope M_scope.
Delimit Scope M_scope with M.
Notation "x <~ c ;; k" := (bindM c (fun x => k))
  (at level 61, c at next level, right associativity) : M_scope.
Open Scope M_scope.

Fixpoint for_eachM {A S : Type} (body : A -> S -> M S) (l : list A) (s : S) : M S :=
  match l with
  | [] => retM s
  | x :: rest => s' <~ body x s ;; for_eachM body rest s'
  end.

(** What a call returns or raises, and the events it caused. *)
Definition value {A : Type} (m : M A) : result A := fst m.
Definition events {A : Type} (m : M A) : trace := snd m.

(** The connections of a trace that are still open at its end. *)
Fixpoint remove_first (p : string) (l : list string) : list string :=
  match l with
  | [] => []
  | q :: rest => if q =? p then rest else q :: remove_first p rest
  end.

Definition step_live (live : list string) (e : event) : list string :=
  match e with
  | Connect p => (live ++ [p])%list
  | Close p => remove_first p live
  end.

Definition still_open (t : trace) : list string := fold_left step_live t [].

(** ** The files under the storage directory *)

(** What a [state.vscdb] does when it is opened and queried. *)
Inductive database : Type :=
| Unopenable                                   (* sqlite3.connect raises *)
| Unreadable                                   (* the SELECT raises *)
| ItemTable (rows : list (string * option string)). (* key, value; NULL is None *)

Record store : Type := mkStore {
  db : database;
  st_mtime : Z;
  st_size : Z
}.

Record dir_entry : Type := mkDirEntry {
  dir_name : string;                  (* workspace_dir.name *)
  is_dir : bool;
  workspace_json : option string      (* the text of workspace.json, if there *)
}.

Record world : Type := mkWorld {
  storage_dir : string;               (* get_storage_dir() *)
  storage_exists : bool;
  iterdir : list dir_entry;
  files : string -> option store      (* the state.vscdb at a path, if there *)
}.

(** [sqlite3.connect] makes an empty database where there is no file; the
    SELECT on it raises for want of the table. *)
Definition db_at (w : world) (p : string) : database :=
  match files w p with
  | Some st => db st
  | None => Unreadable
  end.

(* ================================================================== *)
(** * cursor.py: the Cursor adapter *)

Module Cursor.
Import Base.

Definition name : string := "cursor".

Definition chatdata_key : string := "workbench.panel.aichat.view.aichat.chatdata".
Definition composer_key : string := "composer.composerData".
Definition prompts_key : string := "aiService.prompts".

(** The keys of the SELECT's [IN] list. *)
Definition known_keys : list string := [prompts_key; chatdata_key; composer_key].

Definition role_map : list (string * string) :=
  [("human", "user"); ("ai", "assistant"); ("system", "user")].

Fixpoint role_map_get (m : list (string * string)) (k d : string) : string :=
  match m with
  | [] => d
  | (k', v) :: rest => if k' =? k then v else role_map_get rest k d
  end.

(** [_normalize_role]: [role.lower()] needs a str. *)
Definition _normalize_role (role : json) : result string :=
  match role with
  | JStr r => Ok (role_map_get role_map (Py.lower r) (Py.lower r))
  | _ => Raise AttributeError
  end.

(** ** read_session: the loop over messages and parts *)

(** The body of [for part in content]. *)
Definition append_part (role ts part : json) (entries : list SessionEntry)
  : result (list SessionEntry) :=
  match part with
  | JObj p =>
      if Py.eq_str (Py.dict_get p "type") "text" then
        r <- _normalize_role role ;;
        Ok (entries ++ [text_entry r (Py.dict_get_default p "text" (JStr "")) ts])%list
      else if Py.eq_str (Py.dict_get p "type") "tool_use" then
        Ok (entries ++
            [tool_entry "assistant"
               (JStr ("[Tool: " ++ Py.str (Py.dict_get_default p "name" (JStr "unknown")) ++ "]"))
               ts (Py.dict_get p "name") (Py.dict_get p "input")])%list
      else if Py.eq_str (Py.dict_get p "type") "tool_result" then
        Ok (entries ++
            [text_entry "tool_result"
               (JStr (Py.str (Py.dict_get_default p "content" (JStr "")))) ts])%list
      else Ok entries
  | JStr s =>
      r <- _normalize_role role ;;
      Ok (entries ++ [text_entry r (JStr s) ts])%list
  | _ => Ok entries
  end.

(** The body of [for msg in messages]; [msg.get] needs a dict. *)
Definition append_message (msg : json) (entries : list SessionEntry)
  : result (list SessionEntry) :=
  match msg with
  | JObj m =>
      let role := Py.dict_get_default m "role" (JStr "user") in
      let content := Py.dict_get_default m "content" (JStr "") in
      match content with
      | JArr parts => for_each (append_part role (Py.dict_get m "timestamp")) parts entries
      | JStr s =>
          r <- _normalize_role role ;;
          Ok (entries ++ [text_entry r (JStr s) (Py.dict_get m "timestamp")])%list
      | _ => Ok entries
      end
  | _ => Raise AttributeError
  end.

(** [read_session] from [session_data] on. *)
Definition read_messages (session_data : json) : result (list SessionEntry) :=
  match session_data with
  | JObj d =>
      messages <- Iter.iter (Py.dict_get_default d "messages" (JArr [])) ;;
      for_each append_message messages []
  | _ => Raise AttributeError
  end.

(** ** _extract_summary *)

Definition _extract_summary (session_data : json) : result json :=
  match session_data with
  | JObj d =>
      if Py.truthy (Py.dict_get d "title") then Ok (Py.dict_get d "title")
      else
        let messages := Py.dict_get_default d "messages" (JArr []) in
        if Py.truthy messages then
          first_msg <- Iter.first messages ;;
          match first_msg with
          | JObj m =>
              match Py.dict_get_default m "content" (JStr "") with
              | JStr c =>
                  Ok (JStr (if (60 <? String.length c)%nat
                            then Py.take 60 c ++ "..." else c))
              | _ => Ok JNull
              end
          | _ => Raise AttributeError
          end
        else Ok JNull
  | _ => Raise AttributeError
  end.

Section WithJson.

(** [json.loads] on a str: the document it returns, or [None] when it
    raises [JSONDecodeError], the one exception of [json.loads] that the
    adapter catches.  The texts of the model are those on which [json.loads]
    does one or the other: a text on which it raises another exception (a
    [RecursionError] on a document nested deeper than the interpreter's
    recursion limit) has no image here, and neither has a value of the store
    that is not TEXT. *)
Variable json_loads : string -> option json.

(** ** _get_workspace_folder *)

Definition _get_workspace_folder (workspace_dir : dir_entry) : result (option string) :=
  match workspace_json workspace_dir with
  | Some text =>
      match json_loads text with
      | Some (JObj data) =>
          let folder := Py.dict_get data "folder" in
          if Py.truthy folder then
            match folder with
            | JStr f =>
                if Py.startswith f "file://"
                then Ok (Some (substring 7 (String.length f - 7) f))
                else Ok (Some f)
            | _ => Raise AttributeError
            end
          else Ok None
      | Some _ => Raise AttributeError
      | None => Ok None
      end
  | None => Ok None
  end.

(** ** _get_chat_data *)

(** The body of [for i, chat in enumerate(...)], for the list of chats
    ([prefix] is [chat-]) and for the tabs ([tab-]). *)
Definition scan_chat (prefix : string) (ic : nat * json) (sessions : Dict.t)
  : result Dict.t :=
  let (i, chat) := ic in
  match chat with
  | JObj c =>
      if Py.truthy (Py.dict_get c "messages") then
        Dict.set_item sessions
          (Py.dict_get_default c "id" (JStr (prefix ++ Py.str_of_nat i))) chat
      else Ok sessions
  | _ => Ok sessions
  end.

(** The body of [for comp_id, composer in composers.items()]. *)
Definition scan_composer (kc : string * json) (sessions : Dict.t) : result Dict.t :=
  let (comp_id, composer) := kc in
  match composer with
  | JObj _ => Dict.set_item sessions (JStr ("composer-" ++ comp_id)) composer
  | _ => Ok sessions
  end.

(** The body of [for key, value in cursor.fetchall()], from the decoded
    [data] on. *)
Definition scan_document (key : string) (data : json) (sessions : Dict.t)
  : result Dict.t :=
  if key =? chatdata_key then
    match data with
    | JArr chats => for_each (scan_chat "chat-") (enumerate chats) sessions
    | JObj d =>
        tabs <- Iter.iter (Py.dict_get_default d "tabs" (JArr [])) ;;
        for_each (scan_chat "tab-") (enumerate tabs) sessions
    | _ => Ok sessions
    end
  else if key =? composer_key then
    match data with
    | JObj d =>
        composers <- Iter.items (Py.dict_get_default d "composers" (JObj [])) ;;
        for_each scan_composer composers sessions
    | _ => Ok sessions
    end
  else Ok sessions.

(** The body of [for key, value in cursor.fetchall()]: a value that is
    falsy or that does not decode is passed over. *)
Definition scan_row (row : string * option string) (sessions : Dict.t)
  : result Dict.t :=
  let (key, value) := row in
  match value with
  | None => Ok sessions
  | Some text =>
      if text =? "" then Ok sessions
      else
        match json_loads text with
        | None => Ok sessions
        | Some data => scan_document key data sessions
        end
  end.

Record connection : Type := mkConnection {
  conn_path : string;
  conn_db : database
}.

Definition sqlite3_connect (w : world) (p : string) : M connection :=
  match db_at w p with
  | Unopenable => lift (Raise SqliteError)
  | d => _ <~ emit (Connect p) ;; retM (mkConnection p d)
  end.

(** [cursor.execute(SELECT ... WHERE key IN (...))] and [fetchall()]. *)
Definition select_rows (conn : connection) : M (list (string * option string)) :=
  match conn_db conn with
  | ItemTable rows =>
      retM (filter (fun row => existsb (String.eqb (fst row)) known_keys) rows)
  | _ => lift (Raise SqliteError)
  end.

Definition conn_close (conn : connection) : M unit := emit (Close (conn_path conn)).

Definition _get_chat_data (w : world) (vscdb_path : string) : M Dict.t :=
  except_sqlite
    (conn <~ sqlite3_connect w vscdb_path ;;
     rows <~ select_rows conn ;;
     sessions <~ lift (for_each scan_row rows []) ;;
     _ <~ conn_close conn ;;
     retM sessions)
    (retM []).

(** ** read_session *)

Definition read_session (w : world) (session : SessionInfo) : M (list SessionEntry) :=
  chat_data <~ _get_chat_data w (path session) ;;
  lift (if Dict.is_empty chat_data then Ok []
        else
          found <- Dict.contains chat_data (session_id session) ;;
          if negb found then Ok []
          else
            session_data <- Dict.get_item chat_data (session_id session) ;;
            read_messages session_data).

(** ** list_sessions *)

(** The body of [for session_id, session_data in chat_data.items()]. *)
Definition append_session (project_name vscdb_path : string) (st : store)
    (item : json * json) (sessions : list SessionInfo) : result (list SessionInfo) :=
  let (sid, session_data) := item in
  summary <- _extract_summary session_data ;;
  Ok (sessions ++
      [mkSessionInfo sid name project_name vscdb_path
         (fromtimestamp (st_mtime st)) (st_size st) summary])%list.

(** [project_filter and project_name != project_filter]. *)
Definition filtered_out (project_filter : option string) (project_name : string) : bool :=
  match project_filter with
  | Some p => negb (p =? "") && negb (project_name =? p)
  | None => false
  end.

(** The body of [for workspace_dir in storage_dir.iterdir()]. *)
Definition scan_workspace (w : world) (project_filter : option string)
    (workspace_dir : dir_entry) (sessions : list SessionInfo) : M (list SessionInfo) :=
  if negb (is_dir workspace_dir) then retM sessions
  else
    let vscdb_path := storage_dir w ++ "/" ++ dir_name workspace_dir ++ "/state.vscdb" in
    match files w vscdb_path with
    | None => retM sessions
    | Some st =>
        folder <~ lift (_get_workspace_folder workspace_dir) ;;
        let project_name :=
          match folder with
          | Some f => if f =? "" then dir_name workspace_dir else f
          | None => dir_name workspace_dir
          end in
        if filtered_out project_filter project_name then retM sessions
        else
          chat_data <~ _get_chat_data w vscdb_path ;;
          if Dict.is_empty chat_data then retM sessions
          else lift (for_each (append_session project_name vscdb_path st)
                       chat_data sessions)
    end.

Definition list_sessions (w : world) (project_filter : option string)
  : M (list SessionInfo) :=
  if negb (storage_exists w) then retM []
  else for_eachM (scan_workspace w project_filter) (iterdir w) [].

Definition is_available (w : world) : bool := storage_exists w.

(** [get_cursor_sessions_for_cwd], with [cwd] for what [os.getcwd()]
    returns. *)
Definition get_cursor_sessions_for_cwd (w : world) (cwd : string)
  : M (list SessionInfo) :=
  list_sessions w (Some cwd).

End WithJson.

End Cursor.

(* ================================================================== *)
(** * base.py: the adapter registry *)

Module Registry.
Import Base.

(** The [SourceAdapter] interface, as an instance offers it. *)
Record SourceAdapter : Type := mkSourceAdapter {
  name : string;
  list_sessions : option string -> M (list SessionInfo);
  read_session : SessionInfo -> M (list SessionEntry)
}.

(** An adapter class: its class method [is_available] and the instance
    that calling the class makes. *)
Record adapter_class : Type := mkAdapterClass {
  is_available : bool;
  instantiate : SourceAdapter
}.

(** [sorted(sessions, key=lambda x: x.modified, reverse=True)].  The sort is
    stable, so its result is the one of a stable insertion: an element goes
    in front of the first one that is not more recent. *)
Fixpoint insert_by_modified (x : SessionInfo) (l : list SessionInfo) : list SessionInfo :=
  match l with
  | [] => [x]
  | y :: rest =>
      if (modified x <? modified y)%Z then y :: insert_by_modified x rest
      else x :: y :: rest
  end.

Definition sorted_by_modified_desc (l : list SessionInfo) : list SessionInfo :=
  fold_right insert_by_modified [] l.

Section Adapters.

(** [claude_code.py] is not among the sources at hand: its adapter class is
    any implementation of the interface. *)
Variable ClaudeCodeAdapter : adapter_class.

Variable json_loads : string -> option json.
Variable w : world.

Definition CursorAdapter : adapter_class :=
  mkAdapterClass (Cursor.is_available w)
    (mkSourceAdapter Cursor.name (Cursor.list_sessions json_loads w)
       (Cursor.read_session json_loads w)).

(** The body of [for adapter_class in [...]]. *)
Definition add_available (c : adapter_class) (adapters : list SourceAdapter)
  : list SourceAdapter :=
  if is_available c then (adapters ++ [instantiate c])%list else adapters.

Definition get_all_adapters : list SourceAdapter :=
  fold_left (fun adapters c => add_available c adapters)
    [ClaudeCodeAdapter; CursorAdapter] [].

(** The body of [for adapter in get_all_adapters()]. *)
Definition extend_with (project_filter : option string) (adapter : SourceAdapter)
    (sessions : list SessionInfo) : M (list SessionInfo) :=
  found <~ list_sessions adapter project_filter ;;
  retM (sessions ++ found)%list.

Definition list_all_sessions (project_filter : option string) : M (list SessionInfo) :=
  sessions <~ for_eachM (extend_with project_filter) get_all_adapters [] ;;
  retM (sorted_by_modified_desc sessions).

(** [get_sessions_for_cwd], with [cwd] for what [os.getcwd()] returns. *)
Definition get_sessions_for_cwd (cwd : string) : M (list SessionInfo) :=
  list_all_sessions (Some cwd).

End Adapters.

End Registry.

(* ================================================================== *)
(** * cli.py: the adapter of a session *)

Module Cli.
Import Base.

Section Adapters.

Variable ClaudeCodeAdapter : Registry.adapter_class.
Variable json_loads : string -> option json.
Variable w : world.

(** [next((a for a in ... if ...), default)]. *)
Fixpoint next_matching (f : Registry.SourceAdapter -> bool)
    (adapters : list Registry.SourceAdapter) (default : Registry.SourceAdapter)
  : Registry.SourceAdapter :=
  match adapters with
  | [] => default
  | a :: rest => if f a then a else next_matching f rest default
  end.

(** [_get_adapter_for_session]: the default is a new [ClaudeCodeAdapter()],
    whether that class is available or not. *)
Definition _get_adapter_for_session (session : SessionInfo) : Registry.SourceAdapter :=
  next_matching (fun a => Registry.name a =? source session)
    (Registry.get_all_adapters ClaudeCodeAdapter json_loads w)
    (Registry.instantiate ClaudeCodeAdapter).

End Adapters.

End Cli.

(* ================================================================== *)
(** * Where an entry comes from *)

(** The entries of a list of messages, each with its origin: the index of
    its message and the index of its part.  They are read off the body of
    the loop over the parts, run on one part at a time. *)
Module Origin.
Import Base.

Definition tagged : Type := ((nat * nat) * SessionEntry)%type.

(** What the loop body adds for one part. *)
Definition part_output (role ts part : json) : list SessionEntry :=
  match Cursor.append_part role ts part [] with
  | Ok es => es
  | Raise _ => []
  end.

Definition tag (i j : nat) (es : list SessionEntry) : list tagged :=
  map (fun e => ((i, j), e)) es.

Definition of_parts (i : nat) (role ts : json) (jps : list (nat * json)) : list tagged :=
  flat_map (fun jp => tag i (fst jp) (part_output role ts (snd jp))) jps.

(** A content that is one string counts as part 0. *)
Definition of_message (im : nat * json) : list tagged :=
  match snd im with
  | JObj m =>
      let role := Py.dict_get_default m "role" (JStr "user") in
      let ts := Py.dict_get m "timestamp" in
      match Py.dict_get_default m "content" (JStr "") with
      | JArr parts => of_parts (fst im) role ts (enumerate parts)
      | JStr s => tag (fst im) 0 (part_output role ts (JStr s))
      | _ => []
      end
  | _ => []
  end.

Definition of_messages (msgs : list json) : list tagged :=
  flat_map of_message (enumerate msgs).

(** Origins in reading order. *)
Definition lex_lt (a b : nat * nat) : Prop :=
  fst a < fst b \/ (fst a = fst b /\ snd a < snd b).

(** Part [j] of the message with fields [m] makes the loop body add [e]. *)
Definition emits (m : list (string * json)) (j : nat) (e : SessionEntry) : Prop :=
  let role := Py.dict_get_default m "role" (JStr "user") in
  let ts := Py.dict_get m "timestamp" in
  match Py.dict_get_default m "content" (JStr "") with
  | JArr parts =>
      exists part, nth_error parts j = Some part /\
                   Cursor.append_part role ts part [] = Ok [e]
  | JStr s => j = 0 /\ Cursor.append_part role ts (JStr s) [] = Ok [e]
  | _ => False
  end.

(** A message that [read_session] can run: a dict whose role is a str. *)
Definition well_formed_message (msg : json) : bool :=
  match msg with
  | JObj m =>
      match Py.dict_get_default m "role" (JStr "user") with
      | JStr _ => true
      | _ => false
      end
  | _ => false
  end.

End Origin.

(* ================================================================== *)
(** * Statements about listings *)

Module Listing.
Import Base.

(** [list_sessions(project_filter=P)] is [list_sessions()] restricted to the
    sessions whose project is [P]. *)
Definition filters_by_project (json_loads : string -> option json) (w : world)
    (P : string) : Prop :=
  forall all : list SessionInfo,
    value (Cursor.list_sessions json_loads w None) = Ok all ->
    value (Cursor.list_sessions json_loads w (Some P)) =
    Ok (filter (fun s => project s =? P) all).

(** *** Stores that differ only in message bodies *)

(** Two results of the same kind: two values that [R] relates, or the same
    exception. *)
Definition result_rel {A : Type} (R : A -> A -> Prop) (r1 r2 : result A) : Prop :=
  match r1, r2 with
  | Ok a1, Ok a2 => R a1 a2
  | Raise e1, Raise e2 => e1 = e2
  | _, _ => False
  end.

(** Two dicts with the same keys in the same order, and values that [R]
    relates at each key. *)
Definition dict_rel (R : string -> json -> json -> Prop)
    (m1 m2 : list (string * json)) : Prop :=
  Forall2 (fun kv1 kv2 => fst kv1 = fst kv2 /\ R (fst kv1) (snd kv1) (snd kv2)) m1 m2.

(** Two lists with related items, or twice the same value. *)
Definition list_rel (R : json -> json -> Prop) (v1 v2 : json) : Prop :=
  v1 = v2 \/ exists l1 l2, v1 = JArr l1 /\ v2 = JArr l2 /\ Forall2 R l1 l2.

(** The body of a message is its [content]: two messages are the same but
    for their bodies when they are equal, or are dicts that differ at most
    under that key. *)
Definition same_message (x1 x2 : json) : Prop :=
  x1 = x2 \/
  exists a1 a2, x1 = JObj a1 /\ x2 = JObj a2 /\
                dict_rel (fun k v1 v2 => k = "content" \/ v1 = v2) a1 a2.

(** Two session records that differ at most in the bodies of the messages of
    their [messages] list. *)
Definition session_fields_rel : list (string * json) -> list (string * json) -> Prop :=
  dict_rel (fun k v1 v2 => if k =? "messages" then list_rel same_message v1 v2
                           else v1 = v2).

Definition same_session (s1 s2 : json) : Prop :=
  s1 = s2 \/
  exists m1 m2, s1 = JObj m1 /\ s2 = JObj m2 /\ session_fields_rel m1 m2.

(** Two dicts of sessions with the same ids in the same order. *)
Definition same_sessions (d1 d2 : Dict.t) : Prop :=
  Forall2 (fun kv1 kv2 => fst kv1 = fst kv2 /\ same_session (snd kv1) (snd kv2)) d1 d2.

(** Two decoded values of a key: a list of chats, or a dict whose [tabs] is
    a list of chats and whose [composers] is a dict of composers. *)
Definition same_document (d1 d2 : json) : Prop :=
  list_rel same_session d1 d2 \/
  exists m1 m2, d1 = JObj m1 /\ d2 = JObj m2 /\
    dict_rel (fun k v1 v2 =>
                if k =? "tabs" then list_rel same_session v1 v2
                else if k =? "composers" then
                  v1 = v2 \/
                  exists c1 c2, v1 = JObj c1 /\ v2 = JObj c2 /\
                                dict_rel (fun _ => same_session) c1 c2
                else v1 = v2) m1 m2.

Section SameStores.

Variable json_loads : string -> option json.

Definition same_value (v1 v2 : option string) : Prop :=
  v1 = v2 \/
  exists t1 t2 d1 d2,
    v1 = Some t1 /\ v2 = Some t2 /\ t1 <> "" /\ t2 <> "" /\
    json_loads t1 = Some d1 /\ json_loads t2 = Some d2 /\ same_document d1 d2.

Definition same_rows (rows1 rows2 : list (string * option string)) : Prop :=
  Forall2 (fun r1 r2 => fst r1 = fst r2 /\ same_value (snd r1) (snd r2)) rows1 rows2.

Definition same_database (d1 d2 : database) : Prop :=
  match d1, d2 with
  | Unopenable, Unopenable => True
  | Unreadable, Unreadable => True
  | ItemTable rows1, ItemTable rows2 => same_rows rows1 rows2
  | _, _ => False
  end.

Definition same_store (o1 o2 : option store) : Prop :=
  match o1, o2 with
  | None, None => True
  | Some s1, Some s2 =>
      st_mtime s1 = st_mtime s2 /\ st_size s1 = st_size s2 /\
      same_database (db s1) (db s2)
  | _, _ => False
  end.

(** The same directories and descriptors, and at each path the same file
    but for the message bodies. *)
Definition same_but_bodies (w1 w2 : world) : Prop :=
  storage_dir w1 = storage_dir w2 /\
  storage_exists w1 = storage_exists w2 /\
  iterdir w1 = iterdir w2 /\
  forall p, same_store (files w1 p) (files w2 p).

End SameStores.

(** What a listing shows of a session besides its summary. *)
Definition metadata (s : SessionInfo) : json * string * string * string * datetime * Z :=
  (session_id s, source s, project s, path s, modified s, size s).

Definition same_listing (l1 l2 : list SessionInfo) : Prop :=
  map metadata l1 = map metadata l2.

End Listing.

(* ================================================================== *)
(** * Statements about the Cursor adapter *)

Module Facts.
Import Base.

(** [workspace_dir / "state.vscdb"] for a directory of the storage. *)
Definition vscdb_path (w : world) (e : dir_entry) : string :=
  storage_dir w ++ "/" ++ dir_name e ++ "/state.vscdb".

(** The project label of a workspace: the folder of its descriptor, or the
    name of the directory when there is none. *)
Definition label_of (folder : option string) (e : dir_entry) : string :=
  match folder with
  | Some f => if f =? "" then dir_name e else f
  | None => dir_name e
  end.

Definition is_dict (v : json) : bool :=
  match v with JObj _ => true | _ => false end.

(** A dict of sessions as [_get_chat_data] keeps it: hashable ids, no two of
    them equal, and a dict under each. *)
Definition well_keyed (d : Dict.t) : Prop :=
  Forall (fun kv => Dict.hashable (fst kv) = true /\ is_dict (snd kv) = true) d /\
  ForallOrdPairs (fun a b => Dict.key_eqb (fst a) (fst b) = false) d.

(** The session [s] is what the listing makes of the record [sd] of the
    workspace [e]. *)
Definition listed_from (json_loads : string -> option json) (w : world)
    (project_filter : option string) (e : dir_entry) (s : SessionInfo) : Prop :=
  is_dir e = true /\
  exists (st : store) (folder : option string) (chat_data : Dict.t) (sd : json),
    files w (vscdb_path w e) = Some st /\
    Cursor._get_workspace_folder json_loads e = Ok folder /\
    Cursor.filtered_out project_filter (label_of folder e) = false /\
    value (Cursor._get_chat_data json_loads w (vscdb_path w e)) = Ok chat_data /\
    In (session_id s, sd) chat_data /\
    Cursor._extract_summary sd = Ok (summary s) /\
    source s = "cursor" /\
    project s = label_of folder e /\
    path s = vscdb_path w e /\
    modified s = st_mtime st /\
    size s = st_size st.

(** The places of a message where an entry can come from: its parts, or
    one when its content is not a list. *)
Definition slots (msg : json) : nat :=
  match msg with
  | JObj m =>
      match Py.dict_get_default m "content" (JStr "") with
      | JArr parts => List.length parts
      | _ => 1
      end
  | _ => 0
  end.

(** A result that raises, if at all, an exception that [P] allows. *)
Definition raises_only {A : Type} (P : exn -> Prop) (r : result A) : Prop :=
  match r with
  | Ok _ => True
  | Raise e => P e
  end.

(** The exceptions of ill-shaped decoded data. *)
Definition shape_error (e : exn) : Prop := e = AttributeError \/ e = TypeError.

(** What every entry of the Cursor adapter looks like. *)
Definition cursor_entry (e : SessionEntry) : Prop :=
  is_error e = false /\ model e = JNull /\ Py.lower (role e) = role e /\
  (tool_name e <> JNull \/ tool_input e <> JNull -> role e = "assistant").

End Facts.

(* ================================================================== *)
(** * Concrete stores *)

(** The inputs the examples below run on.  A text of a store is written as
    the name of a JSON document; [loads] is [json.loads] on these names and
    raises [JSONDecodeError] on every other text. *)
Module Examples.
Import Base.

Definition msg (role content : string) : json :=
  JObj [("role", JStr role); ("content", JStr content)].

(** [{"id": "abc", "messages": [user "hi", assistant "hello"]}]. *)
Definition chat_abc : json :=
  JObj [("id", JStr "abc");
        ("messages", JArr [msg "user" "hi"; msg "assistant" "hello"])].

(** The same chat with other message bodies. *)
Definition chat_abc_edited : json :=
  JObj [("id", JStr "abc");
        ("messages", JArr [msg "user" "good morning"; msg "assistant" "hello there"])].

(** A chat whose second message is a bare string, not an object. *)
Definition chat_bad_message : json :=
  JObj [("id", JStr "abc");
        ("messages", JArr [msg "user" "hi"; JStr "oops"])].

(** A message with every kind of part. *)
Definition mixed_parts : list json :=
  [JObj [("type", JStr "text"); ("text", JStr "look at this")];
   JStr "bare";
   JObj [("type", JStr "image"); ("url", JStr "x.png")];
   JObj [("type", JStr "tool_use"); ("name", JStr "grep");
         ("input", JObj [("pattern", JStr "TODO")])];
   JInt 7;
   JObj [("type", JStr "tool_result"); ("content", JArr [JInt 1; JStr "a"])]].

Definition mixed_messages : list json :=
  [msg "Human" "start";
   JObj [("role", JStr "AI"); ("content", JArr mixed_parts);
         ("timestamp", JStr "2024-01-01T00:00:00Z")];
   msg "system" "done"].

Definition mixed_fields : list (string * json) :=
  [("id", JStr "mix"); ("messages", JArr mixed_messages)].

Definition chat_mixed : json := JObj mixed_fields.

(** [{"composers": {"c1": {"title": "refactor"}}}]. *)
Definition composers_doc : json :=
  JObj [("composers", JObj [("c1", JObj [("title", JStr "refactor")])])].

(** [{"tabs": 5}]. *)
Definition tabs_number_doc : json := JObj [("tabs", JInt 5)].

Definition documents : list (string * json) :=
  [("chats", JArr [chat_abc]);
   ("chats-edited", JArr [chat_abc_edited]);
   ("chats-bad-message", JArr [chat_bad_message]);
   ("chats-mixed", JArr [chat_mixed]);
   ("composers", composers_doc);
   ("tabs-number", tabs_number_doc);
   ("descriptor", JObj [("folder", JStr "file:///home/u/proj")])].

Definition loads (text : string) : option json := Py.lookup documents text.

Definition root : string := "/home/u/.config/Cursor/User/workspaceStorage".
Definition vscdb : string := "/home/u/.config/Cursor/User/workspaceStorage/h1/state.vscdb".

(** One workspace [h1] with a descriptor and a [state.vscdb] that behaves as
    [d]. *)
Definition world_of (d : database) : world :=
  mkWorld root true [mkDirEntry "h1" true (Some "descriptor")]
    (fun p => if p =? vscdb then Some (mkStore d 1700000000%Z 4096%Z) else None).

Definition rows_chats : list (string * option string) :=
  [(Cursor.chatdata_key, Some "chats")].

Definition rows_mixed : list (string * option string) :=
  [(Cursor.chatdata_key, Some "chats-mixed")].

Definition rows_edited : list (string * option string) :=
  [(Cursor.chatdata_key, Some "chats-edited")].

Definition rows_bad_message : list (string * option string) :=
  [(Cursor.chatdata_key, Some "chats-bad-message")].

Definition rows_composers : list (string * option string) :=
  [(Cursor.composer_key, Some "composers")].

(** The chat key holds [{"tabs": 5}], the composer key is sound. *)
Definition rows_tabs_number : list (string * option string) :=
  [(Cursor.chatdata_key, Some "tabs-number"); (Cursor.composer_key, Some "composers")].

(** The chat key holds a text that is not JSON, the composer key is sound. *)
Definition rows_garbled : list (string * option string) :=
  [(Cursor.chatdata_key, Some "{not json"); (Cursor.composer_key, Some "composers")].

Definition composer_c1 : json := JObj [("title", JStr "refactor")].

Definition session_abc : SessionInfo :=
  mkSessionInfo (JStr "abc") "cursor" "/home/u/proj" vscdb 1700000000%Z 4096%Z (JStr "hi").

Definition session_mix : SessionInfo :=
  mkSessionInfo (JStr "mix") "cursor" "/home/u/proj" vscdb 1700000000%Z 4096%Z (JStr "start").

Definition agent_session : SessionInfo :=
  mkSessionInfo (JStr "agent-7f3a") "claude_code" "/home/u/proj" "/home/u/x.jsonl" 5%Z 10%Z JNull.

Definition newer_session : SessionInfo :=
  mkSessionInfo (JStr "b2c4") "claude_code" "/home/u/proj" "/home/u/y.jsonl"
    1800000000%Z 20%Z JNull.

(** Two stand-ins for the Claude Code adapter class: one that is available
    and lists two sessions, one that is not available and whose methods
    would raise. *)
Definition claude_available : Registry.adapter_class :=
  Registry.mkAdapterClass true
    (Registry.mkSourceAdapter "claude_code"
       (fun _ => (Ok [agent_session; newer_session], []))
       (fun _ => (Ok [], []))).

Definition claude_unavailable : Registry.adapter_class :=
  Registry.mkAdapterClass false
    (Registry.mkSourceAdapter "claude_code"
       (fun _ => (Raise TypeError, []))
       (fun _ => (Raise TypeError, []))).

End Examples.

(* ================================================================== *)
(** * Properties *)

Import Base.
Import Examples.

(** ** The monads *)

Lemma bind_ok_inv {A B : Type} (r : result A) (k : A -> result B) (b : B) :
  bind r k = Ok b -> exists a, r = Ok a /\ k a = Ok b.
Proof.
  destruct r as [a | e]; simpl; intros H; [eauto | discriminate].
Qed.

Lemma for_each_app {A S : Type} (body : A -> S -> result S) (l1 l2 : list A) (s : S) :
  for_each body (l1 ++ l2)%list s = (s' <- for_each body l1 s ;; for_each body l2 s').
Proof.
  revert s; induction l1 as [| x l1 IH]; intros s; simpl; [reflexivity |].
  destruct (body x s) as [s' | e]; simpl; [apply IH | reflexivity].
Qed.

Lemma value_bindM {A B : Type} (m : M A) (k : A -> M B) :
  value (bindM m k) = (a <- value m ;; value (k a)).
Proof.
  unfold value, bindM. destruct m as [[a | e] t]; simpl; [| reflexivity].
  destruct (k a); reflexivity.
Qed.

Lemma value_lift {A : Type} (r : result A) : value (lift r) = r.
Proof. reflexivity. Qed.

Lemma value_retM {A : Type} (a : A) : value (retM a) = Ok a.
Proof. reflexivity. Qed.

(** ** Strings *)

Lemma prefix_app (p s : string) :
  String.prefix p s = true <-> exists rest, s = p ++ rest.
Proof.
  revert s; induction p as [| c p IH]; intros s; simpl.
  - split; [intros _; exists s; reflexivity | intros _; destruct s; reflexivity].
  - destruct s as [| d s]; simpl.
    + split; [discriminate | intros [rest H]; discriminate].
    + destruct (Ascii.ascii_dec c d) as [-> | Hcd].
      * rewrite IH. split; intros [rest H]; exists rest.
        -- now rewrite H.
        -- now inversion H.
      * split; [discriminate |]. intros [rest H]. congruence.
Qed.

(** ** SessionInfo.session_type (C1) *)

(** C1.  A session whose id is the str [id] is of type [agent] exactly when
    [id] starts with [agent-], and of type [main] otherwise; the type is a
    function of the id alone: two sessions with the same id have the same
    type, whatever their source and other fields. *)
Theorem session_type_by_prefix (s : SessionInfo) (id : string) :
  session_id s = JStr id ->
  (session_type s = Ok "agent" <-> exists rest, id = "agent-" ++ rest) /\
  (session_type s = Ok "main" <-> ~ exists rest, id = "agent-" ++ rest) /\
  (forall s' : SessionInfo, session_id s' = session_id s -> session_type s' = session_type s).
Proof.
  intros Hid. unfold session_type. rewrite Hid. unfold Py.startswith.
  rewrite <- prefix_app.
  split; [| split].
  - destruct (String.prefix "agent-" id); split; congruence.
  - destruct (String.prefix "agent-" id); split; congruence.
  - intros s' H. rewrite H. reflexivity.
Qed.

Lemma session_type_by_prefix_witness :
  session_id agent_session = JStr "agent-7f3a" /\
  session_type agent_session = Ok "agent".
Proof.
  split; [reflexivity |].
  apply (proj1 (session_type_by_prefix agent_session "agent-7f3a" eq_refl)).
  exists "7f3a". reflexivity.
Defined.

(** ** read_session: roles and parts (C3, C10) *)

Lemma eq_str_true (v : json) (s : string) : Py.eq_str v s = true <-> v = JStr s.
Proof.
  destruct v; simpl; try (split; [discriminate | congruence]).
  rewrite String.eqb_eq. split; congruence.
Qed.

Lemma eq_str_false (v : json) (s : string) : Py.eq_str v s = false <-> v <> JStr s.
Proof.
  rewrite <- eq_str_true. destruct (Py.eq_str v s); split; congruence.
Qed.

Lemma _normalize_role_str (r : string) :
  Cursor._normalize_role (JStr r) =
  Ok (if Py.lower r =? "human" then "user"
      else if Py.lower r =? "ai" then "assistant"
      else if Py.lower r =? "system" then "user"
      else Py.lower r).
Proof.
  cbv [Cursor._normalize_role Cursor.role_map Cursor.role_map_get].
  rewrite (String.eqb_sym "human"), (String.eqb_sym "ai"), (String.eqb_sym "system").
  reflexivity.
Qed.



(** C10.  A part that is a dict whose [type] is none of [text], [tool_use]
    and [tool_result], or that is neither a dict nor a str, adds no entry,
    and the loop over the parts goes on as if the part were not there. *)
Theorem read_session_drops_unrecognised_part
    (role ts part : json) (before after : list json) (entries : list SessionEntry) :
  match part with
  | JObj p => Py.dict_get p "type" <> JStr "text" /\
              Py.dict_get p "type" <> JStr "tool_use" /\
              Py.dict_get p "type" <> JStr "tool_result"
  | JStr _ => False
  | _ => True
  end ->
  Cursor.append_part role ts part entries = Ok entries /\
  for_each (Cursor.append_part role ts) (before ++ part :: after)%list entries =
  for_each (Cursor.append_part role ts) (before ++ after)%list entries.
Proof.
  intros Hpart.
  assert (Hdrop : forall acc, Cursor.append_part role ts part acc = Ok acc).
  { intros acc. destruct part as [| b | z | s | l | p]; try reflexivity; try contradiction.
    destruct Hpart as (H1 & H2 & H3).
    apply eq_str_false in H1, H2, H3.
    unfold Cursor.append_part. rewrite H1, H2, H3. reflexivity. }
  split; [apply Hdrop |].
  rewrite !for_each_app. simpl.
  destruct (for_each (Cursor.append_part role ts) before entries) as [acc | e]; simpl;
    [rewrite Hdrop; reflexivity | reflexivity].
Qed.

Lemma read_session_drops_unrecognised_part_witness :
  for_each (Cursor.append_part (JStr "ai") JNull)
    [JStr "a"; JObj [("type", JStr "image"); ("url", JStr "x.png")]; JStr "b"] [] =
  Ok [text_entry "assistant" (JStr "a") JNull; text_entry "assistant" (JStr "b") JNull].
Proof.
  refine (eq_trans (proj2 (read_session_drops_unrecognised_part (JStr "ai") JNull
    (JObj [("type", JStr "image"); ("url", JStr "x.png")]) [JStr "a"] [JStr "b"] [] _)) _).
  - simpl. repeat split; discriminate.
  - reflexivity.
Defined.

(** ** read_session: order (C2) *)

Lemma part_output_cases (r : string) (ts part : json) :
  (Cursor.append_part (JStr r) ts part [] = Ok [] /\ Origin.part_output (JStr r) ts part = []) \/
  (exists e, Cursor.append_part (JStr r) ts part [] = Ok [e] /\
             Origin.part_output (JStr r) ts part = [e]).
Proof.
  unfold Origin.part_output.
  destruct part as [| b | z | s | l | p]; try (left; split; reflexivity).
  - right. unfold Cursor.append_part. rewrite _normalize_role_str. simpl. eauto.
  - unfold Cursor.append_part.
    destruct (Py.eq_str (Py.dict_get p "type") "text").
    { right. rewrite _normalize_role_str. simpl. eauto. }
    destruct (Py.eq_str (Py.dict_get p "type") "tool_use"); [right; simpl; eauto |].
    destruct (Py.eq_str (Py.dict_get p "type") "tool_result"); [right; simpl; eauto |].
    left; split; reflexivity.
Qed.

Lemma append_part_appends (r : string) (ts part : json) (entries : list SessionEntry) :
  Cursor.append_part (JStr r) ts part entries =
  Ok (entries ++ Origin.part_output (JStr r) ts part)%list.
Proof.
  unfold Origin.part_output.
  destruct part as [| b | z | s | l | p]; simpl; rewrite ?app_nil_r; try reflexivity.
  destruct (Py.eq_str (Py.dict_get p "type") "text"); [reflexivity |].
  destruct (Py.eq_str (Py.dict_get p "type") "tool_use"); [reflexivity |].
  destruct (Py.eq_str (Py.dict_get p "type") "tool_result"); [reflexivity |].
  rewrite app_nil_r. reflexivity.
Qed.

Lemma for_each_append_part (r : string) (ts : json) (parts : list json)
    (entries : list SessionEntry) :
  for_each (Cursor.append_part (JStr r) ts) parts entries =
  Ok (entries ++ flat_map (Origin.part_output (JStr r) ts) parts)%list.
Proof.
  revert entries; induction parts as [| part parts IH]; intros entries; simpl.
  - now rewrite app_nil_r.
  - rewrite append_part_appends. simpl. rewrite IH, app_assoc. reflexivity.
Qed.

Lemma map_snd_tag (i j : nat) (es : list SessionEntry) :
  map snd (Origin.tag i j es) = es.
Proof.
  unfold Origin.tag. rewrite map_map. simpl. apply map_id.
Qed.

Lemma map_snd_of_parts (i : nat) (role ts : json) (jps : list (nat * json)) :
  map snd (Origin.of_parts i role ts jps) =
  flat_map (Origin.part_output role ts) (map snd jps).
Proof.
  induction jps as [| jp jps IH]; [reflexivity |].
  change (Origin.of_parts i role ts (jp :: jps))
    with (Origin.tag i (fst jp) (Origin.part_output role ts (snd jp)) ++
          Origin.of_parts i role ts jps)%list.
  rewrite map_app, map_snd_tag. cbn [map flat_map]. f_equal. exact IH.
Qed.

Lemma map_snd_combine_seq {A : Type} (l : list A) (a : nat) :
  map snd (combine (seq a (List.length l)) l) = l.
Proof.
  revert a; induction l as [| x l IH]; intros a; simpl; [reflexivity |].
  now rewrite IH.
Qed.

Lemma append_message_appends (i : nat) (msg : json) (entries : list SessionEntry) :
  Origin.well_formed_message msg = true ->
  Cursor.append_message msg entries =
  Ok (entries ++ map snd (Origin.of_message (i, msg)))%list.
Proof.
  unfold Origin.well_formed_message, Origin.of_message, Cursor.append_message.
  destruct msg as [| b | z | s | l | m]; try discriminate. cbn [fst snd].
  destruct (Py.dict_get_default m "role" (JStr "user")) as [| b | z | r | l | p] eqn:Hrole;
    try discriminate.
  intros _.
  destruct (Py.dict_get_default m "content" (JStr "")) as [| b | z | s | parts | p];
    try (cbn [map]; rewrite app_nil_r; reflexivity).
  - rewrite map_snd_tag.
    exact (append_part_appends r (Py.dict_get m "timestamp") (JStr s) entries).
  - rewrite for_each_append_part, map_snd_of_parts.
    unfold enumerate. rewrite map_snd_combine_seq. reflexivity.
Qed.

Lemma for_each_append_message (ims : list (nat * json)) (entries : list SessionEntry) :
  forallb Origin.well_formed_message (map snd ims) = true ->
  for_each Cursor.append_message (map snd ims) entries =
  Ok (entries ++ map snd (flat_map Origin.of_message ims))%list.
Proof.
  revert entries; induction ims as [| [i msg] ims IH]; intros entries; simpl.
  - now rewrite app_nil_r.
  - rewrite andb_true_iff. intros [Hmsg Hims].
    rewrite (append_message_appends i msg entries Hmsg). simpl.
    rewrite IH by assumption. rewrite map_app, app_assoc. reflexivity.
Qed.

Lemma read_messages_origins (d : list (string * json)) (msgs : list json) :
  Py.dict_get_default d "messages" (JArr []) = JArr msgs ->
  forallb Origin.well_formed_message msgs = true ->
  Cursor.read_messages (JObj d) = Ok (map snd (Origin.of_messages msgs)).
Proof.
  intros Hm Hwf. unfold Cursor.read_messages. rewrite Hm. simpl.
  unfold Origin.of_messages.
  pose proof (for_each_append_message (enumerate msgs) []) as H.
  unfold enumerate in *. rewrite map_snd_combine_seq in H.
  rewrite (H Hwf). reflexivity.
Qed.

Lemma in_combine_seq {A : Type} (l : list A) (a i : nat) (x : A) :
  In (i, x) (combine (seq a (List.length l)) l) <->
  a <= i /\ nth_error l (i - a) = Some x.
Proof.
  revert a; induction l as [| y l IH]; intros a; simpl.
  - split; [contradiction |]. intros [_ H]. destruct (i - a); discriminate.
  - rewrite IH. split.
    + intros [H | [Hle H]].
      * inversion H; subst. split; [lia |]. now rewrite Nat.sub_diag.
      * split; [lia |]. replace (i - a) with (S (i - S a)) by lia. exact H.
    + intros [Hle H]. destruct (Nat.eq_dec a i) as [-> | Hne].
      * left. rewrite Nat.sub_diag in H. simpl in H. congruence.
      * right. split; [lia |].
        replace (i - a) with (S (i - S a)) in H by lia. exact H.
Qed.

Lemma in_enumerate {A : Type} (l : list A) (i : nat) (x : A) :
  In (i, x) (enumerate l) <-> nth_error l i = Some x.
Proof.
  unfold enumerate. rewrite in_combine_seq, Nat.sub_0_r.
  split; [tauto | split; [lia | assumption]].
Qed.

Lemma StronglySorted_app {A : Type} (R : A -> A -> Prop) (l1 l2 : list A) :
  StronglySorted R l1 -> StronglySorted R l2 ->
  (forall x y, In x l1 -> In y l2 -> R x y) ->
  StronglySorted R (l1 ++ l2).
Proof.
  intros H1 H2 H12. induction H1 as [| x l1 Hl1 IH Hx]; simpl; [assumption |].
  constructor.
  - apply IH. intros a b Ha Hb. apply H12; [now right | assumption].
  - apply Forall_app. split; [assumption |].
    apply Forall_forall. intros y Hy. apply H12; [now left | assumption].
Qed.

Lemma in_part_output (r : string) (ts part : json) (e : SessionEntry) :
  In e (Origin.part_output (JStr r) ts part) <->
  Cursor.append_part (JStr r) ts part [] = Ok [e].
Proof.
  destruct (part_output_cases r ts part) as [[Ha Hp] | [e' [Ha Hp]]];
    rewrite Ha, Hp; simpl.
  - split; [contradiction | discriminate].
  - split; [intros [-> | []]; reflexivity | intros H; left; congruence].
Qed.

Lemma in_tag (i j i' j' : nat) (es : list SessionEntry) (e : SessionEntry) :
  In ((i, j), e) (Origin.tag i' j' es) <-> i = i' /\ j = j' /\ In e es.
Proof.
  unfold Origin.tag. rewrite in_map_iff. split.
  - intros [e' [H Hin]]. inversion H; subst. auto.
  - intros (-> & -> & Hin). exists e. auto.
Qed.

Lemma in_of_parts (i i' j : nat) (r : string) (ts : json) (jps : list (nat * json))
    (e : SessionEntry) :
  In ((i, j), e) (Origin.of_parts i' (JStr r) ts jps) <->
  i = i' /\ exists part, In (j, part) jps /\
                         Cursor.append_part (JStr r) ts part [] = Ok [e].
Proof.
  unfold Origin.of_parts. rewrite in_flat_map. split.
  - intros [[j' part] [Hin Ht]]. apply in_tag in Ht. simpl in Ht.
    destruct Ht as (-> & -> & He). split; [reflexivity |].
    exists part. split; [assumption | now apply in_part_output].
  - intros [-> [part [Hin He]]]. exists (j, part). split; [assumption |].
    apply in_tag. simpl. repeat split. now apply in_part_output.
Qed.

(** The origins of the entries of one list of parts go up. *)
Lemma of_parts_sorted (i : nat) (r : string) (ts : json) (parts : list json) (a : nat) :
  StronglySorted Origin.lex_lt
    (map fst (Origin.of_parts i (JStr r) ts (combine (seq a (List.length parts)) parts))) /\
  Forall (fun t => fst t = i /\ a <= snd t)
    (map fst (Origin.of_parts i (JStr r) ts (combine (seq a (List.length parts)) parts))).
Proof.
  revert a; induction parts as [| part parts IH]; intros a.
  - split; constructor.
  - destruct (IH (S a)) as [Hs Hf].
    change (Origin.of_parts i (JStr r) ts
              (combine (seq a (List.length (part :: parts))) (part :: parts)))
      with (Origin.tag i a (Origin.part_output (JStr r) ts part) ++
            Origin.of_parts i (JStr r) ts
              (combine (seq (S a) (List.length parts)) parts))%list.
    rewrite map_app.
    assert (Hf' : Forall (fun t => fst t = i /\ a <= snd t)
                    (map fst (Origin.of_parts i (JStr r) ts
                                (combine (seq (S a) (List.length parts)) parts)))).
    { eapply Forall_impl; [| exact Hf]. simpl. intros t [H1 H2]. split; [assumption | lia]. }
    destruct (part_output_cases r ts part) as [[_ Hp] | [e [_ Hp]]]; rewrite Hp; simpl.
    + split; assumption.
    + split.
      * constructor; [assumption |].
        eapply Forall_impl; [| exact Hf]. simpl. intros t [H1 H2].
        right. simpl. split; [congruence | lia].
      * constructor; [simpl; split; [reflexivity | lia] | assumption].
Qed.

Lemma of_message_sorted (i : nat) (msg : json) :
  Origin.well_formed_message msg = true ->
  StronglySorted Origin.lex_lt (map fst (Origin.of_message (i, msg))) /\
  Forall (fun t => fst t = i) (map fst (Origin.of_message (i, msg))).
Proof.
  unfold Origin.well_formed_message, Origin.of_message.
  destruct msg as [| b | z | s | l | m]; try discriminate. cbn [fst snd].
  destruct (Py.dict_get_default m "role" (JStr "user")) as [| b | z | r | l | p];
    try discriminate.
  intros _.
  destruct (Py.dict_get_default m "content" (JStr "")) as [| b | z | s | parts | p];
    try solve [split; constructor].
  - destruct (part_output_cases r (Py.dict_get m "timestamp") (JStr s))
      as [[_ Hp] | [e [_ Hp]]]; rewrite Hp; simpl.
    + split; constructor.
    + split; repeat constructor.
  - destruct (of_parts_sorted i r (Py.dict_get m "timestamp") parts 0) as [Hs Hf].
    split; [exact Hs |].
    eapply Forall_impl; [| exact Hf]. simpl. tauto.
Qed.

Lemma of_messages_sorted (msgs : list json) (a : nat) :
  forallb Origin.well_formed_message msgs = true ->
  StronglySorted Origin.lex_lt
    (map fst (flat_map Origin.of_message (combine (seq a (List.length msgs)) msgs))) /\
  Forall (fun t => a <= fst t)
    (map fst (flat_map Origin.of_message (combine (seq a (List.length msgs)) msgs))).
Proof.
  revert a; induction msgs as [| msg msgs IH]; intros a Hwf.
  - split; constructor.
  - simpl in Hwf. apply andb_true_iff in Hwf. destruct Hwf as [Hmsg Hmsgs].
    destruct (IH (S a) Hmsgs) as [Hs Hf].
    destruct (of_message_sorted a msg Hmsg) as [Hs0 Hf0].
    cbn [List.length seq combine flat_map]. rewrite map_app. split.
    + apply StronglySorted_app; [assumption | assumption |].
      intros x y Hx Hy.
      rewrite Forall_forall in Hf0, Hf.
      specialize (Hf0 x Hx). specialize (Hf y Hy). left. lia.
    + apply Forall_app. split.
      * eapply Forall_impl; [| exact Hf0]. simpl. intros t Ht. lia.
      * eapply Forall_impl; [| exact Hf]. simpl. intros t Ht. lia.
Qed.

Lemma in_of_message (i i' j : nat) (m : list (string * json)) (e : SessionEntry) :
  Origin.well_formed_message (JObj m) = true ->
  (In ((i, j), e) (Origin.of_message (i', JObj m)) <-> i = i' /\ Origin.emits m j e).
Proof.
  unfold Origin.well_formed_message, Origin.of_message, Origin.emits. cbn [fst snd].
  destruct (Py.dict_get_default m "role" (JStr "user")) as [| b | z | r | l | p];
    try discriminate.
  intros _.
  destruct (Py.dict_get_default m "content" (JStr "")) as [| b | z | s | parts | p];
    try solve [split; [contradiction | tauto]].
  - rewrite in_tag, in_part_output. tauto.
  - rewrite in_of_parts. split.
    + intros [-> [part [Hin He]]]. split; [reflexivity |].
      exists part. split; [now apply in_enumerate | assumption].
    + intros [-> [part [Hn He]]]. split; [reflexivity |].
      exists part. split; [now apply in_enumerate | assumption].
Qed.

Lemma in_of_messages (msgs : list json) (i j : nat) (e : SessionEntry) :
  forallb Origin.well_formed_message msgs = true ->
  (In ((i, j), e) (Origin.of_messages msgs) <->
   exists m, nth_error msgs i = Some (JObj m) /\ Origin.emits m j e).
Proof.
  intros Hwf. rewrite forallb_forall in Hwf.
  unfold Origin.of_messages. rewrite in_flat_map. split.
  - intros [[i' msg] [Hin Ht]]. apply in_enumerate in Hin.
    assert (Hmsg : Origin.well_formed_message msg = true).
    { apply Hwf. eapply nth_error_In; eassumption. }
    destruct msg as [| b | z | s | l | m]; try discriminate.
    apply (in_of_message i i' j m e Hmsg) in Ht. destruct Ht as [-> He]. eauto.
  - intros [m [Hn He]]. exists (i, JObj m). split; [now apply in_enumerate |].
    apply in_of_message; [apply Hwf; eapply nth_error_In; eassumption | auto].
Qed.

(** C2.  When the record of the session is a dict whose [messages] is a list
    of messages that are dicts with a str role, [read_session] returns the
    entries that the parts add, each once, in the order of their origins
    (message index, then part index); the content of a message may be a
    string, a list of any parts, or anything else. *)
Theorem read_session_keeps_order
    (json_loads : string -> option json) (w : world) (session : SessionInfo)
    (chat_data : Dict.t) (d : list (string * json)) (msgs : list json) :
  value (Cursor._get_chat_data json_loads w (path session)) = Ok chat_data ->
  Dict.hashable (session_id session) = true ->
  Dict.find chat_data (session_id session) = Some (JObj d) ->
  Py.dict_get_default d "messages" (JArr []) = JArr msgs ->
  forallb Origin.well_formed_message msgs = true ->
  value (Cursor.read_session json_loads w session) =
    Ok (map snd (Origin.of_messages msgs)) /\
  StronglySorted Origin.lex_lt (map fst (Origin.of_messages msgs)) /\
  (forall (i j : nat) (e : SessionEntry),
     In ((i, j), e) (Origin.of_messages msgs) <->
     exists m, nth_error msgs i = Some (JObj m) /\ Origin.emits m j e).
Proof.
  intros Hdata Hhash Hfind Hmsgs Hwf. split; [| split].
  - unfold Cursor.read_session. rewrite value_bindM, Hdata. cbn [bind].
    rewrite value_lift.
    destruct chat_data as [| kv rest]; [discriminate |]. cbn [Dict.is_empty].
    unfold Dict.contains, Dict.get_item. rewrite Hhash, Hfind. cbn [bind negb].
    now apply read_messages_origins.
  - exact (proj1 (of_messages_sorted msgs 0 Hwf)).
  - intros i j e. now apply in_of_messages.
Qed.

Lemma read_session_keeps_order_witness :
  value (Cursor.read_session loads (world_of (ItemTable rows_mixed)) session_mix) =
  Ok (map snd (Origin.of_messages mixed_messages)) /\
  map fst (Origin.of_messages mixed_messages) =
  [(0, 0); (1, 0); (1, 1); (1, 3); (1, 5); (2, 0)].
Proof.
  split; [| reflexivity].
  exact (proj1 (read_session_keeps_order loads (world_of (ItemTable rows_mixed))
                  session_mix [(JStr "mix", chat_mixed)] mixed_fields mixed_messages
                  eq_refl eq_refl eq_refl eq_refl eq_refl)).
Defined.

(** ** Faults of the store (C4, C5, C9) *)

(** A store that cannot be opened or queried reads as no session. *)
Lemma _get_chat_data_store_fault
    (json_loads : string -> option json) (w : world) (p : string) :
  db_at w p = Unopenable \/ db_at w p = Unreadable ->
  value (Cursor._get_chat_data json_loads w p) = Ok [].
Proof.
  unfold Cursor._get_chat_data, Cursor.sqlite3_connect.
  intros [H | H]; rewrite H; reflexivity.
Qed.

Lemma read_session_store_fault
    (json_loads : string -> option json) (w : world) (session : SessionInfo) :
  db_at w (path session) = Unopenable \/ db_at w (path session) = Unreadable ->
  value (Cursor.read_session json_loads w session) = Ok [].
Proof.
  intros H. unfold Cursor.read_session.
  rewrite value_bindM, (_get_chat_data_store_fault json_loads w _ H). reflexivity.
Qed.

(** A session that is no longer in the store reads as no entry. *)
Lemma read_session_absent
    (json_loads : string -> option json) (w : world) (session : SessionInfo)
    (chat_data : Dict.t) :
  value (Cursor._get_chat_data json_loads w (path session)) = Ok chat_data ->
  Dict.hashable (session_id session) = true ->
  Dict.find chat_data (session_id session) = None ->
  value (Cursor.read_session json_loads w session) = Ok [].
Proof.
  intros Hdata Hhash Hfind. unfold Cursor.read_session.
  rewrite value_bindM, Hdata. cbn [bind]. rewrite value_lift.
  destruct chat_data; [reflexivity |]. cbn [Dict.is_empty].
  unfold Dict.contains. rewrite Hhash, Hfind. reflexivity.
Qed.

(** C4, on the code: the chat [abc] of this store has a second message that
    is a bare string.  [list_sessions] lists the session, and [read_session]
    on it raises [AttributeError] at [msg.get] instead of returning the entry
    of the first message or an empty list. *)
Theorem read_session_raises_on_bad_message :
  value (Cursor.list_sessions loads (world_of (ItemTable rows_bad_message)) None) =
    Ok [session_abc] /\
  value (Cursor.read_session loads (world_of (ItemTable rows_bad_message)) session_abc) =
    Raise AttributeError.
Proof. split; reflexivity. Qed.

(** A value that is NULL, empty or not JSON is passed over. *)
Lemma scan_row_skips_undecodable
    (json_loads : string -> option json) (key : string) (value : option string)
    (sessions : Dict.t) :
  match value with
  | None => True
  | Some text => text = "" \/ json_loads text = None
  end ->
  Cursor.scan_row json_loads (key, value) sessions = Ok sessions.
Proof.
  unfold Cursor.scan_row. destruct value as [text |]; [| reflexivity].
  intros [-> | H]; [reflexivity |].
  destruct (text =? ""); [reflexivity |]. now rewrite H.
Qed.

(** Such a row does not change what the other rows give. *)
Lemma for_each_scan_row_skips_undecodable
    (json_loads : string -> option json) (key text : string)
    (before after : list (string * option string)) (sessions : Dict.t) :
  json_loads text = None ->
  for_each (Cursor.scan_row json_loads) (before ++ (key, Some text) :: after)%list sessions =
  for_each (Cursor.scan_row json_loads) (before ++ after)%list sessions.
Proof.
  intros H. rewrite !for_each_app. cbn [for_each].
  destruct (for_each (Cursor.scan_row json_loads) before sessions) as [acc | e];
    cbn [bind]; [| reflexivity].
  rewrite (scan_row_skips_undecodable json_loads key (Some text) acc); [reflexivity |].
  now right.
Qed.

(** C5, on the code: with [{"tabs": 5}] under the chat key and a sound
    composer key, [_get_chat_data] raises [TypeError] at [enumerate(tabs)];
    the composer session, which the composer key alone gives, is lost.  A
    text that is not JSON under the chat key is passed over. *)
Theorem _get_chat_data_raises_on_tabs_number :
  value (Cursor._get_chat_data loads (world_of (ItemTable rows_tabs_number)) vscdb) =
    Raise TypeError /\
  value (Cursor._get_chat_data loads (world_of (ItemTable rows_composers)) vscdb) =
    Ok [(JStr "composer-c1", composer_c1)] /\
  value (Cursor._get_chat_data loads (world_of (ItemTable rows_garbled)) vscdb) =
    Ok [(JStr "composer-c1", composer_c1)].
Proof. repeat split; reflexivity. Qed.

(** When the rows are read without an exception, the connection is opened
    and closed. *)
Lemma _get_chat_data_closes
    (json_loads : string -> option json) (w : world) (p : string)
    (rows : list (string * option string)) (sessions : Dict.t) :
  db_at w p = ItemTable rows ->
  for_each (Cursor.scan_row json_loads)
    (filter (fun row => existsb (String.eqb (fst row)) Cursor.known_keys) rows) [] =
    Ok sessions ->
  Cursor._get_chat_data json_loads w p = (Ok sessions, [Connect p; Close p]).
Proof.
  intros Hdb Hrows.
  unfold Cursor._get_chat_data, Cursor.sqlite3_connect, Cursor.select_rows.
  rewrite Hdb.
  cbv [bindM emit retM lift except_sqlite Cursor.conn_db Cursor.conn_path Cursor.conn_close].
  rewrite Hrows. reflexivity.
Qed.

(** C9, on the code: when the SELECT raises [sqlite3.Error], the [except]
    clause is entered with the connection open and [conn.close()] is not
    run: [_get_chat_data], and with it [read_session] and [list_sessions],
    return with the connection still open. *)
Theorem _get_chat_data_leaves_connection_open :
  Cursor._get_chat_data loads (world_of Unreadable) vscdb = (Ok [], [Connect vscdb]) /\
  still_open (events (Cursor._get_chat_data loads (world_of Unreadable) vscdb)) = [vscdb] /\
  still_open (events (Cursor.read_session loads (world_of Unreadable) session_abc)) = [vscdb] /\
  still_open (events (Cursor.list_sessions loads (world_of Unreadable) None)) = [vscdb] /\
  still_open (events (Cursor._get_chat_data loads (world_of (ItemTable rows_chats)) vscdb)) = [].
Proof. repeat split; reflexivity. Qed.

(** ** list_sessions: the project filter (C6) *)

Lemma value_for_eachM {A S : Type} (body : A -> S -> M S) (l : list A) (s : S) :
  value (for_eachM body l s) = for_each (fun x acc => value (body x acc)) l s.
Proof.
  revert s; induction l as [| x l IH]; intros s; [reflexivity |].
  cbn [for_eachM for_each]. rewrite value_bindM.
  destruct (value (body x s)); cbn [bind]; [apply IH | reflexivity].
Qed.

(** The loop over the sessions of one store only appends, and every session
    it appends carries the project of the workspace. *)
Lemma for_each_append_session (pn p : string) (st : store) (items : Dict.t)
    (acc acc1 : list SessionInfo) :
  for_each (Cursor.append_session pn p st) items acc = Ok acc1 ->
  exists new, acc1 = (acc ++ new)%list /\
              Forall (fun s => project s = pn) new /\
              forall acc2, for_each (Cursor.append_session pn p st) items acc2 =
                           Ok (acc2 ++ new)%list.
Proof.
  revert acc acc1; induction items as [| [sid sd] items IH]; intros acc acc1; cbn [for_each].
  - intros H; inversion H; subst. exists []. rewrite app_nil_r.
    repeat split; [constructor |]. intros acc2. now rewrite app_nil_r.
  - unfold Cursor.append_session at 1.
    destruct (Cursor._extract_summary sd) as [summary | e] eqn:Hs; cbn [bind];
      [| discriminate].
    intros H. destruct (IH _ _ H) as (new & -> & Hall & Hnew).
    eexists (_ :: new). rewrite <- app_assoc. split; [reflexivity |].
    split; [constructor; [reflexivity | assumption] |].
    intros acc2. unfold Cursor.append_session at 1. rewrite Hs. cbn [bind].
    rewrite Hnew, <- app_assoc. reflexivity.
Qed.

Lemma filter_project_all (P : string) (l : list SessionInfo) :
  Forall (fun s => project s = P) l -> filter (fun s => project s =? P) l = l.
Proof.
  induction 1 as [| s l Hs _ IH]; simpl; [reflexivity |].
  rewrite Hs, String.eqb_refl, IH. reflexivity.
Qed.

Lemma filter_project_none (pn P : string) (l : list SessionInfo) :
  pn <> P -> Forall (fun s => project s = pn) l ->
  filter (fun s => project s =? P) l = [].
Proof.
  intros Hne. induction 1 as [| s l Hs _ IH]; simpl; [reflexivity |].
  rewrite Hs. apply String.eqb_neq in Hne. rewrite Hne. exact IH.
Qed.

Lemma scan_workspace_filter
    (json_loads : string -> option json) (w : world) (P : string)
    (e : dir_entry) (acc acc1 : list SessionInfo) :
  P <> "" ->
  value (Cursor.scan_workspace json_loads w None e acc) = Ok acc1 ->
  exists new, acc1 = (acc ++ new)%list /\
    forall acc2,
      value (Cursor.scan_workspace json_loads w (Some P) e acc2) =
      Ok (acc2 ++ filter (fun s => project s =? P) new)%list.
Proof.
  intros HP. apply String.eqb_neq in HP.
  assert (Hnil : forall (l : list SessionInfo), Ok l = Ok (l ++ [])%list)
    by (intros l; now rewrite app_nil_r).
  unfold Cursor.scan_workspace.
  destruct (is_dir e); cbn [negb].
  2: { intros H; inversion H; subst. exists []. split; [now rewrite app_nil_r |].
       intros acc2. apply Hnil. }
  destruct (files w _) as [st |].
  2: { intros H; inversion H; subst. exists []. split; [now rewrite app_nil_r |].
       intros acc2. apply Hnil. }
  rewrite value_bindM, value_lift.
  destruct (Cursor._get_workspace_folder json_loads e) as [folder | ex]; cbn [bind];
    [| discriminate].
  set (pn := match folder with
             | Some f => if f =? "" then dir_name e else f
             | None => dir_name e
             end).
  cbn [Cursor.filtered_out]. rewrite HP. cbn [negb andb].
  rewrite value_bindM.
  destruct (value (Cursor._get_chat_data json_loads w _)) as [cd | ex] eqn:Hcd; cbn [bind];
    [| discriminate].
  destruct (Dict.is_empty cd) eqn:Hempty.
  - intros H; inversion H; subst. exists []. split; [now rewrite app_nil_r |].
    intros acc2. rewrite value_bindM, value_lift. cbn [bind].
    fold pn.
    destruct (negb (pn =? P)); [apply Hnil |].
    rewrite value_bindM, Hcd. cbn [bind]. rewrite Hempty. apply Hnil.
  - rewrite value_lift. intros H.
    destruct (for_each_append_session _ _ _ _ _ _ H) as (new & -> & Hall & Hnew).
    exists new. split; [reflexivity |].
    intros acc2. rewrite value_bindM, value_lift. cbn [bind].
    fold pn.
    destruct (pn =? P) eqn:Hpn; cbn [negb].
    + apply String.eqb_eq in Hpn.
      rewrite value_bindM, Hcd. cbn [bind]. rewrite Hempty, value_lift, Hnew.
      rewrite filter_project_all by (now rewrite <- Hpn). reflexivity.
    + apply String.eqb_neq in Hpn.
      rewrite (filter_project_none pn P new Hpn Hall). apply Hnil.
Qed.

Lemma scan_workspace_empty_filter
    (json_loads : string -> option json) (w : world) (e : dir_entry)
    (acc : list SessionInfo) :
  Cursor.scan_workspace json_loads w (Some "") e acc =
  Cursor.scan_workspace json_loads w None e acc.
Proof. reflexivity. Qed.

(** C6, as the code has it.  For a project label [P] that is not empty,
    [list_sessions(project_filter=P)] returns exactly the sessions of
    [list_sessions()] whose project is [P], in the same order; the empty
    label is no filter and returns all of them. *)
Theorem list_sessions_filters_by_project
    (json_loads : string -> option json) (w : world) (P : string) :
  (P <> "" -> Listing.filters_by_project json_loads w P) /\
  Cursor.list_sessions json_loads w (Some "") = Cursor.list_sessions json_loads w None.
Proof.
  split.
  - intros HP all. unfold Cursor.list_sessions.
    destruct (storage_exists w); cbn [negb].
    2: { intros H; inversion H; subst. reflexivity. }
    rewrite !value_for_eachM.
    change (@nil SessionInfo) with (filter (fun s => project s =? P) []) at 2.
    generalize (@nil SessionInfo) as acc. revert all.
    induction (iterdir w) as [| e es IH]; intros all acc; cbn [for_each].
    + intros H; inversion H; subst. reflexivity.
    + destruct (value (Cursor.scan_workspace json_loads w None e acc)) as [acc1 | ex] eqn:He;
        cbn [bind]; [| discriminate].
      destruct (scan_workspace_filter json_loads w P e acc acc1 HP He) as (new & -> & Hnew).
      intros H. rewrite Hnew. cbn [bind]. rewrite <- filter_app. now apply IH.
  - unfold Cursor.list_sessions. destruct (storage_exists w); [| reflexivity].
    cbn [negb]. generalize (@nil SessionInfo) as acc.
    induction (iterdir w) as [| e es IH]; intros acc; [reflexivity |].
    cbn [for_eachM]. rewrite scan_workspace_empty_filter.
    unfold bindM. destruct (Cursor.scan_workspace json_loads w None e acc) as [[a | ex] t];
      [rewrite IH |]; reflexivity.
Qed.

Lemma list_sessions_filters_by_project_witness :
  value (Cursor.list_sessions loads (world_of (ItemTable rows_chats)) (Some "/home/u/proj")) =
    Ok [session_abc] /\
  value (Cursor.list_sessions loads (world_of (ItemTable rows_chats)) (Some "/srv/other")) =
    Ok [].
Proof.
  split.
  - refine (proj1 (list_sessions_filters_by_project loads
             (world_of (ItemTable rows_chats)) "/home/u/proj") _ [session_abc] eq_refl).
    discriminate.
  - refine (proj1 (list_sessions_filters_by_project loads
             (world_of (ItemTable rows_chats)) "/srv/other") _ [session_abc] eq_refl).
    discriminate.
Defined.

(** C6 as stated fails for the empty label: the store lists one session, of
    project [/home/u/proj]; [list_sessions(project_filter="")] returns it,
    though its project is not the empty label. *)
Lemma list_sessions_empty_filter_counterexample :
  ~ Listing.filters_by_project loads (world_of (ItemTable rows_chats)) "".
Proof.
  intros H. specialize (H [session_abc] eq_refl). discriminate H.
Qed.

(** ** list_all_sessions (C7) *)

Lemma insert_by_modified_perm (x : SessionInfo) (l : list SessionInfo) :
  Permutation (Registry.insert_by_modified x l) (x :: l).
Proof.
  induction l as [| y l IH]; simpl; [reflexivity |].
  destruct (modified x <? modified y)%Z; [| reflexivity].
  rewrite IH. apply perm_swap.
Qed.

Lemma sorted_by_modified_desc_perm (l : list SessionInfo) :
  Permutation (Registry.sorted_by_modified_desc l) l.
Proof.
  induction l as [| x l IH]; simpl; [reflexivity |].
  rewrite insert_by_modified_perm. now constructor.
Qed.

Lemma insert_by_modified_sorted (x : SessionInfo) (l : list SessionInfo) :
  StronglySorted (fun a b => (modified b <= modified a)%Z) l ->
  StronglySorted (fun a b => (modified b <= modified a)%Z)
    (Registry.insert_by_modified x l).
Proof.
  induction 1 as [| y l Hl IH Hy]; simpl; [repeat constructor |].
  destruct (modified x <? modified y)%Z eqn:Hxy.
  - apply Z.ltb_lt in Hxy. constructor; [assumption |].
    eapply Permutation_Forall; [symmetry; apply insert_by_modified_perm |].
    constructor; [lia | assumption].
  - apply Z.ltb_ge in Hxy. constructor; [now constructor |].
    constructor; [assumption |].
    eapply Forall_impl; [| exact Hy]. simpl. intros b Hb. lia.
Qed.

Lemma sorted_by_modified_desc_sorted (l : list SessionInfo) :
  StronglySorted (fun a b => (modified b <= modified a)%Z)
    (Registry.sorted_by_modified_desc l).
Proof.
  induction l as [| x l IH]; simpl; [constructor |].
  now apply insert_by_modified_sorted.
Qed.

Lemma for_each_extend_with (pf : option string) (adapters : list Registry.SourceAdapter)
    (found : list (list SessionInfo)) (acc : list SessionInfo) :
  Forall2 (fun a ls => value (Registry.list_sessions a pf) = Ok ls) adapters found ->
  value (for_eachM (Registry.extend_with pf) adapters acc) = Ok (acc ++ List.concat found)%list.
Proof.
  intros H. revert acc. induction H as [| a ls adapters found Ha _ IH]; intros acc.
  - simpl. now rewrite app_nil_r.
  - cbn [for_eachM]. rewrite value_bindM. unfold Registry.extend_with at 1.
    rewrite value_bindM, Ha. cbn [bind]. rewrite value_retM. cbn [bind].
    rewrite IH. cbn [List.concat]. now rewrite app_assoc.
Qed.

(** C7.  The adapters of the registry are the instances of the classes that
    are available, in the order of the registry; a class that is not
    available is not instantiated and its [list_sessions] is not run.  When
    the [list_sessions] of each adapter of the registry returns,
    [list_all_sessions] returns the sorted concatenation of what they return:
    a rearrangement of it in which [modified] never goes up. *)
Theorem list_all_sessions_sorted_concat
    (ClaudeCodeAdapter : Registry.adapter_class)
    (json_loads : string -> option json) (w : world)
    (project_filter : option string) (found : list (list SessionInfo)) :
  Registry.get_all_adapters ClaudeCodeAdapter json_loads w =
    map Registry.instantiate
      (filter Registry.is_available
         [ClaudeCodeAdapter; Registry.CursorAdapter json_loads w]) /\
  (Forall2 (fun a ls => value (Registry.list_sessions a project_filter) = Ok ls)
     (Registry.get_all_adapters ClaudeCodeAdapter json_loads w) found ->
   exists out,
     value (Registry.list_all_sessions ClaudeCodeAdapter json_loads w project_filter) =
       Ok out /\
     out = Registry.sorted_by_modified_desc (List.concat found) /\
     Permutation out (List.concat found) /\
     StronglySorted (fun a b => (modified b <= modified a)%Z) out).
Proof.
  split.
  - unfold Registry.get_all_adapters, Registry.add_available. cbn [fold_left filter].
    destruct (Registry.is_available ClaudeCodeAdapter);
      destruct (Registry.is_available (Registry.CursorAdapter json_loads w)); reflexivity.
  - intros H. exists (Registry.sorted_by_modified_desc (List.concat found)).
    split; [| split; [reflexivity | split]].
    + unfold Registry.list_all_sessions. rewrite value_bindM.
      rewrite (for_each_extend_with _ _ _ _ H). reflexivity.
    + apply sorted_by_modified_desc_perm.
    + apply sorted_by_modified_desc_sorted.
Qed.

Lemma list_all_sessions_sorted_concat_witness :
  value (Registry.list_all_sessions claude_unavailable loads
           (world_of (ItemTable rows_chats)) None) = Ok [session_abc] /\
  value (Registry.list_all_sessions claude_available loads
           (world_of (ItemTable rows_chats)) None) =
    Ok [newer_session; session_abc; agent_session].
Proof.
  split.
  - destruct (proj2 (list_all_sessions_sorted_concat claude_unavailable loads
                       (world_of (ItemTable rows_chats)) None [[session_abc]]))
      as (out & Hout & -> & _).
    + repeat constructor.
    + exact Hout.
  - destruct (proj2 (list_all_sessions_sorted_concat claude_available loads
                       (world_of (ItemTable rows_chats)) None
                       [[agent_session; newer_session]; [session_abc]]))
      as (out & Hout & -> & _).
    + repeat constructor.
    + exact Hout.
Defined.

(** ** list_sessions and the message bodies (C8) *)

Import Listing.

Lemma result_rel_bind {A B : Type} (RA : A -> A -> Prop) (RB : B -> B -> Prop)
    (r1 r2 : result A) (k1 k2 : A -> result B) :
  result_rel RA r1 r2 ->
  (forall a1 a2, RA a1 a2 -> result_rel RB (k1 a1) (k2 a2)) ->
  result_rel RB (bind r1 k1) (bind r2 k2).
Proof.
  destruct r1 as [a1 | e1], r2 as [a2 | e2]; simpl; intros H Hk;
    [now apply Hk | contradiction | contradiction | assumption].
Qed.

Lemma for_each_rel {A S : Type} (RA : A -> A -> Prop) (RS : S -> S -> Prop)
    (body1 body2 : A -> S -> result S) (l1 l2 : list A) :
  Forall2 RA l1 l2 ->
  (forall x1 x2 a1 a2, RA x1 x2 -> RS a1 a2 ->
                       result_rel RS (body1 x1 a1) (body2 x2 a2)) ->
  forall s1 s2, RS s1 s2 ->
  result_rel RS (for_each body1 l1 s1) (for_each body2 l2 s2).
Proof.
  intros Hl Hbody. induction Hl as [| x1 x2 l1 l2 Hx _ IH]; intros s1 s2 Hs.
  - exact Hs.
  - cbn [for_each]. eapply result_rel_bind; [now apply Hbody | exact IH].
Qed.

Lemma Forall2_same {A : Type} (R : A -> A -> Prop) (l : list A) :
  (forall x, R x x) -> Forall2 R l l.
Proof. intros HR. induction l; constructor; auto. Qed.

Lemma Forall2_combine_seq {A : Type} (R : A -> A -> Prop) (l1 l2 : list A) (a : nat) :
  Forall2 R l1 l2 ->
  Forall2 (fun ix1 ix2 => fst ix1 = fst ix2 /\ R (snd ix1) (snd ix2))
    (combine (seq a (List.length l1)) l1) (combine (seq a (List.length l2)) l2).
Proof.
  intros H. revert a. induction H as [| x1 x2 l1 l2 Hx _ IH]; intros a; simpl.
  - constructor.
  - constructor; [split; [reflexivity | exact Hx] | apply IH].
Qed.

Lemma dict_rel_lookup (R : string -> json -> json -> Prop)
    (m1 m2 : list (string * json)) (k : string) :
  dict_rel R m1 m2 ->
  match Py.lookup m1 k, Py.lookup m2 k with
  | Some v1, Some v2 => R k v1 v2
  | None, None => True
  | _, _ => False
  end.
Proof.
  induction 1 as [| [k1 v1] [k2 v2] m1 m2 [Hk HR] _ IH]; simpl; [exact I |].
  simpl in Hk, HR. subst k2.
  destruct (k1 =? k) eqn:Hkk; [| exact IH].
  apply String.eqb_eq in Hkk. now subst k1.
Qed.

Lemma dict_rel_same (R : string -> json -> json -> Prop) (m : list (string * json)) :
  (forall k v, R k v v) -> dict_rel R m m.
Proof. intros HR. apply Forall2_same. intros [k v]. split; [reflexivity | apply HR]. Qed.

Lemma list_rel_same (R : json -> json -> Prop) (v : json) : list_rel R v v.
Proof. now left. Qed.

Lemma same_session_same (s : json) : same_session s s.
Proof. now left. Qed.

Lemma list_rel_truthy (R : json -> json -> Prop) (v1 v2 : json) :
  list_rel R v1 v2 -> Py.truthy v1 = Py.truthy v2.
Proof.
  intros [-> | (l1 & l2 & -> & -> & H)]; [reflexivity |].
  destruct H; reflexivity.
Qed.

Lemma list_rel_iter (R : json -> json -> Prop) (v1 v2 : json) :
  (forall x, R x x) -> list_rel R v1 v2 ->
  result_rel (Forall2 R) (Iter.iter v1) (Iter.iter v2).
Proof.
  intros HR [-> | (l1 & l2 & -> & -> & H)]; [| exact H].
  destruct (Iter.iter v2) as [l | e]; simpl; [now apply Forall2_same | reflexivity].
Qed.

Lemma same_session_cases (s1 s2 : json) :
  same_session s1 s2 ->
  (exists m1 m2, s1 = JObj m1 /\ s2 = JObj m2 /\ session_fields_rel m1 m2) \/
  (s1 = s2 /\ match s1 with JObj _ => False | _ => True end).
Proof.
  intros [-> | (m1 & m2 & -> & -> & H)].
  - destruct s2 as [| b | z | s | l | m]; try (right; split; [reflexivity | exact I]).
    left. exists m, m. repeat split. apply dict_rel_same.
    intros k v. destruct (k =? "messages"); [apply list_rel_same | reflexivity].
  - left. exists m1, m2. auto.
Qed.

Lemma session_fields_other (m1 m2 : list (string * json)) (k : string) (d : json) :
  session_fields_rel m1 m2 -> k <> "messages" ->
  Py.dict_get m1 k = Py.dict_get m2 k /\
  Py.dict_get_default m1 k d = Py.dict_get_default m2 k d.
Proof.
  intros H Hk. apply String.eqb_neq in Hk.
  pose proof (dict_rel_lookup _ m1 m2 k H) as HL. cbv beta in HL. rewrite Hk in HL.
  unfold Py.dict_get, Py.dict_get_default.
  destruct (Py.lookup m1 k), (Py.lookup m2 k); try contradiction; subst; auto.
Qed.

Lemma session_fields_messages (m1 m2 : list (string * json)) (d : json) :
  session_fields_rel m1 m2 ->
  list_rel same_message (Py.dict_get m1 "messages") (Py.dict_get m2 "messages") /\
  list_rel same_message (Py.dict_get_default m1 "messages" d)
    (Py.dict_get_default m2 "messages" d).
Proof.
  intros H.
  pose proof (dict_rel_lookup _ m1 m2 "messages" H) as HL. cbv beta in HL.
  rewrite String.eqb_refl in HL.
  unfold Py.dict_get, Py.dict_get_default.
  destruct (Py.lookup m1 "messages"), (Py.lookup m2 "messages"); try contradiction;
    split; try assumption; apply list_rel_same.
Qed.

Lemma _extract_summary_rel (s1 s2 : json) :
  same_session s1 s2 ->
  result_rel (fun _ _ => True) (Cursor._extract_summary s1) (Cursor._extract_summary s2).
Proof.
  intros H. destruct (same_session_cases s1 s2 H) as [(m1 & m2 & -> & -> & Hm) | [-> Hs]].
  2: { destruct (Cursor._extract_summary s2); simpl; auto. }
  unfold Cursor._extract_summary.
  destruct (session_fields_other m1 m2 "title" JNull Hm) as [Ht _]; [discriminate |].
  rewrite Ht. destruct (Py.truthy (Py.dict_get m2 "title")); [exact I |].
  destruct (session_fields_messages m1 m2 (JArr []) Hm) as [_ Hmsgs].
  rewrite (list_rel_truthy _ _ _ Hmsgs).
  destruct (Py.truthy (Py.dict_get_default m2 "messages" (JArr []))); [| exact I].
  assert (Hfirst : result_rel same_message
            (Iter.first (Py.dict_get_default m1 "messages" (JArr [])))
            (Iter.first (Py.dict_get_default m2 "messages" (JArr [])))).
  { destruct Hmsgs as [-> | (l1 & l2 & -> & -> & Hl)].
    - destruct (Iter.first _); simpl; [now left | reflexivity].
    - destruct Hl as [| x1 x2 l1 l2 Hx _]; simpl; [reflexivity | exact Hx]. }
  eapply result_rel_bind; [exact Hfirst |].
  intros x1 x2 [-> | (a1 & a2 & -> & -> & _)].
  - destruct x2 as [| b | z | s | l | a]; simpl; auto.
    destruct (Py.dict_get_default a "content" (JStr "")); exact I.
  - destruct (Py.dict_get_default a1 "content" (JStr ""));
      destruct (Py.dict_get_default a2 "content" (JStr "")); exact I.
Qed.

Lemma same_sessions_put (d1 d2 : Dict.t) (k v1 v2 : json) :
  same_sessions d1 d2 -> same_session v1 v2 ->
  same_sessions (Dict.put d1 k v1) (Dict.put d2 k v2).
Proof.
  intros Hd Hv. induction Hd as [| [k1 x1] [k2 x2] d1 d2 [Hk Hx] Hd IH]; simpl.
  - constructor; [split; [reflexivity | exact Hv] | constructor].
  - simpl in Hk, Hx. subst k2. destruct (Dict.key_eqb k1 k).
    + constructor; [split; [reflexivity | exact Hv] | exact Hd].
    + constructor; [split; [reflexivity | exact Hx] | exact IH].
Qed.

Lemma same_sessions_set_item (d1 d2 : Dict.t) (k v1 v2 : json) :
  same_sessions d1 d2 -> same_session v1 v2 ->
  result_rel same_sessions (Dict.set_item d1 k v1) (Dict.set_item d2 k v2).
Proof.
  intros Hd Hv. unfold Dict.set_item.
  destruct (Dict.hashable k); simpl; [now apply same_sessions_put | reflexivity].
Qed.

Lemma scan_chat_rel (prefix : string) (ic1 ic2 : nat * json) (d1 d2 : Dict.t) :
  fst ic1 = fst ic2 /\ same_session (snd ic1) (snd ic2) ->
  same_sessions d1 d2 ->
  result_rel same_sessions (Cursor.scan_chat prefix ic1 d1) (Cursor.scan_chat prefix ic2 d2).
Proof.
  destruct ic1 as [i1 c1], ic2 as [i2 c2]. simpl. intros [<- Hc] Hd.
  destruct (same_session_cases c1 c2 Hc) as [(m1 & m2 & -> & -> & Hm) | [-> Hs]].
  - destruct (session_fields_messages m1 m2 JNull Hm) as [Hmsgs _].
    rewrite (list_rel_truthy _ _ _ Hmsgs).
    destruct (Py.truthy (Py.dict_get m2 "messages")); [| exact Hd].
    destruct (session_fields_other m1 m2 "id" (JStr (prefix ++ Py.str_of_nat i1)) Hm)
      as [_ Hid]; [discriminate |].
    rewrite Hid. now apply same_sessions_set_item.
  - destruct c2; try contradiction; exact Hd.
Qed.

Lemma scan_composer_rel (kc1 kc2 : string * json) (d1 d2 : Dict.t) :
  fst kc1 = fst kc2 /\ same_session (snd kc1) (snd kc2) ->
  same_sessions d1 d2 ->
  result_rel same_sessions (Cursor.scan_composer kc1 d1) (Cursor.scan_composer kc2 d2).
Proof.
  destruct kc1 as [k1 c1], kc2 as [k2 c2]. simpl. intros [<- Hc] Hd.
  destruct (same_session_cases c1 c2 Hc) as [(m1 & m2 & -> & -> & Hm) | [-> Hs]].
  - now apply same_sessions_set_item.
  - destruct c2; try contradiction; exact Hd.
Qed.

Lemma scan_chats_rel (prefix : string) (l1 l2 : list json) (d1 d2 : Dict.t) :
  Forall2 same_session l1 l2 -> same_sessions d1 d2 ->
  result_rel same_sessions
    (for_each (Cursor.scan_chat prefix) (enumerate l1) d1)
    (for_each (Cursor.scan_chat prefix) (enumerate l2) d2).
Proof.
  intros Hl Hd. unfold enumerate.
  eapply for_each_rel; [apply Forall2_combine_seq; exact Hl | | exact Hd].
  intros x1 x2 a1 a2 Hx Ha. now apply scan_chat_rel.
Qed.

Lemma scan_document_rel (key : string) (data1 data2 : json) (d1 d2 : Dict.t) :
  same_document data1 data2 -> same_sessions d1 d2 ->
  result_rel same_sessions
    (Cursor.scan_document key data1 d1) (Cursor.scan_document key data2 d2).
Proof.
  intros Hdoc Hd.
  assert (Hcases :
    (data1 = data2 /\ match data1 with JArr _ | JObj _ => False | _ => True end) \/
    (exists l1 l2, data1 = JArr l1 /\ data2 = JArr l2 /\ Forall2 same_session l1 l2) \/
    (exists m1 m2, data1 = JObj m1 /\ data2 = JObj m2 /\
       list_rel same_session (Py.dict_get_default m1 "tabs" (JArr []))
         (Py.dict_get_default m2 "tabs" (JArr [])) /\
       (Py.dict_get_default m1 "composers" (JObj []) =
        Py.dict_get_default m2 "composers" (JObj []) \/
        exists c1 c2, Py.dict_get_default m1 "composers" (JObj []) = JObj c1 /\
                      Py.dict_get_default m2 "composers" (JObj []) = JObj c2 /\
                      dict_rel (fun _ => same_session) c1 c2))).
  { destruct Hdoc as [[-> | (l1 & l2 & -> & -> & Hl)] | (m1 & m2 & -> & -> & Hm)].
    - destruct data2 as [| b | z | s | l | m]; try (left; split; [reflexivity | exact I]).
      + right; left. exists l, l. repeat split. apply Forall2_same, same_session_same.
      + right; right. exists m, m. repeat split; [apply list_rel_same | now left].
    - right; left. eauto.
    - right; right. exists m1, m2. repeat split.
      + pose proof (dict_rel_lookup _ m1 m2 "tabs" Hm) as HL. cbv beta in HL.
        rewrite String.eqb_refl in HL. unfold Py.dict_get_default.
        destruct (Py.lookup m1 "tabs"), (Py.lookup m2 "tabs"); try contradiction;
          [exact HL | apply list_rel_same].
      + pose proof (dict_rel_lookup _ m1 m2 "composers" Hm) as HL. cbv beta in HL.
        change ("composers" =? "tabs") with false in HL.
        rewrite String.eqb_refl in HL. unfold Py.dict_get_default.
        destruct (Py.lookup m1 "composers"), (Py.lookup m2 "composers");
          try contradiction; [exact HL | now left]. }
  unfold Cursor.scan_document.
  destruct Hcases as [[-> Hshape] | [(l1 & l2 & -> & -> & Hl) | (m1 & m2 & -> & -> & Ht & Hc)]].
  - destruct (key =? Cursor.chatdata_key).
    { destruct data2; try contradiction; exact Hd. }
    destruct (key =? Cursor.composer_key); [| exact Hd].
    destruct data2; try contradiction; exact Hd.
  - destruct (key =? Cursor.chatdata_key); [now apply scan_chats_rel |].
    destruct (key =? Cursor.composer_key); exact Hd.
  - destruct (key =? Cursor.chatdata_key).
    { eapply result_rel_bind.
      - apply list_rel_iter; [apply same_session_same | exact Ht].
      - intros l1 l2 Hl. now apply scan_chats_rel. }
    destruct (key =? Cursor.composer_key); [| exact Hd].
    eapply result_rel_bind with (RA := dict_rel (fun _ => same_session)).
    + destruct Hc as [-> | (c1 & c2 & -> & -> & Hcc)]; [| exact Hcc].
      destruct (Iter.items _) as [c | e]; simpl; [| reflexivity].
      apply dict_rel_same. intros _ v. apply same_session_same.
    + intros c1 c2 Hcc. eapply for_each_rel; [exact Hcc | | exact Hd].
      intros x1 x2 a1 a2 Hx Ha. now apply scan_composer_rel.
Qed.

Lemma scan_row_rel (json_loads : string -> option json)
    (r1 r2 : string * option string) (d1 d2 : Dict.t) :
  fst r1 = fst r2 /\ same_value json_loads (snd r1) (snd r2) ->
  same_sessions d1 d2 ->
  result_rel same_sessions
    (Cursor.scan_row json_loads r1 d1) (Cursor.scan_row json_loads r2 d2).
Proof.
  destruct r1 as [k1 v1], r2 as [k2 v2]. simpl. intros [<- Hv] Hd.
  destruct Hv as [-> | (t1 & t2 & x1 & x2 & -> & -> & Ht1 & Ht2 & Hx1 & Hx2 & Hdoc)].
  - destruct v2 as [text |]; [| exact Hd].
    destruct (text =? ""); [exact Hd |].
    destruct (json_loads text) as [data |]; [| exact Hd].
    apply scan_document_rel; [left; apply list_rel_same | exact Hd].
  - apply String.eqb_neq in Ht1, Ht2. rewrite Ht1, Ht2, Hx1, Hx2.
    now apply scan_document_rel.
Qed.

Lemma _get_chat_data_value (json_loads : string -> option json) (w : world) (p : string) :
  value (Cursor._get_chat_data json_loads w p) =
  match db_at w p with
  | ItemTable rows =>
      match for_each (Cursor.scan_row json_loads)
              (filter (fun row => existsb (String.eqb (fst row)) Cursor.known_keys) rows) []
      with
      | Raise SqliteError => Ok []
      | r => r
      end
  | _ => Ok []
  end.
Proof.
  unfold Cursor._get_chat_data, Cursor.sqlite3_connect, Cursor.select_rows.
  destruct (db_at w p) as [| | rows]; try reflexivity.
  cbv [bindM emit retM lift except_sqlite Cursor.conn_db Cursor.conn_path Cursor.conn_close value].
  destruct (for_each _ _ _) as [sessions | []]; reflexivity.
Qed.

Lemma same_rows_filter (json_loads : string -> option json)
    (f : string -> bool) (rows1 rows2 : list (string * option string)) :
  same_rows json_loads rows1 rows2 ->
  same_rows json_loads (filter (fun row => f (fst row)) rows1)
    (filter (fun row => f (fst row)) rows2).
Proof.
  induction 1 as [| r1 r2 rows1 rows2 [Hk Hv] _ IH]; simpl; [constructor |].
  rewrite <- Hk. destruct (f (fst r1)); [constructor; [split |]; assumption | exact IH].
Qed.

Lemma _get_chat_data_rel (json_loads : string -> option json) (w1 w2 : world) (p : string) :
  same_store json_loads (files w1 p) (files w2 p) ->
  result_rel same_sessions
    (value (Cursor._get_chat_data json_loads w1 p))
    (value (Cursor._get_chat_data json_loads w2 p)).
Proof.
  intros Hs. rewrite !_get_chat_data_value. unfold db_at.
  destruct (files w1 p) as [s1 |], (files w2 p) as [s2 |]; try contradiction;
    [| constructor].
  destruct Hs as (_ & _ & Hdb).
  destruct (db s1) as [| | rows1], (db s2) as [| | rows2]; try contradiction;
    try constructor.
  simpl in Hdb.
  pose proof (for_each_rel _ same_sessions
                (Cursor.scan_row json_loads) (Cursor.scan_row json_loads) _ _
                (same_rows_filter json_loads
                   (fun k => existsb (String.eqb k) Cursor.known_keys) _ _ Hdb)
                (fun x1 x2 a1 a2 Hx Ha => scan_row_rel json_loads x1 x2 a1 a2 Hx Ha)
                [] [] (Forall2_nil _)) as H.
  cbv beta in H.
  destruct (for_each _ _ _) as [a1 | e1]; destruct (for_each _ _ _) as [a2 | e2];
    simpl in H; try contradiction; [exact H |].
  subst e2. destruct e1; simpl; constructor.
Qed.

Lemma scan_workspace_value (json_loads : string -> option json) (w : world)
    (project_filter : option string) (e : dir_entry) (acc : list SessionInfo) :
  value (Cursor.scan_workspace json_loads w project_filter e acc) =
  if negb (is_dir e) then Ok acc
  else
    let vscdb_path := storage_dir w ++ "/" ++ dir_name e ++ "/state.vscdb" in
    match files w vscdb_path with
    | None => Ok acc
    | Some st =>
        folder <- Cursor._get_workspace_folder json_loads e ;;
        let project_name :=
          match folder with
          | Some f => if f =? "" then dir_name e else f
          | None => dir_name e
          end in
        if Cursor.filtered_out project_filter project_name then Ok acc
        else
          chat_data <- value (Cursor._get_chat_data json_loads w vscdb_path) ;;
          if Dict.is_empty chat_data then Ok acc
          else for_each (Cursor.append_session project_name vscdb_path st) chat_data acc
    end.
Proof.
  unfold Cursor.scan_workspace.
  destruct (negb (is_dir e)); [reflexivity |]. cbv zeta.
  destruct (files w _) as [st |]; [| reflexivity].
  rewrite value_bindM, value_lift.
  destruct (Cursor._get_workspace_folder json_loads e) as [folder | ex]; cbn [bind];
    [| reflexivity].
  destruct (Cursor.filtered_out _ _); [reflexivity |].
  rewrite value_bindM.
  destruct (value (Cursor._get_chat_data json_loads w _)) as [cd | ex]; cbn [bind];
    [| reflexivity].
  destruct (Dict.is_empty cd); reflexivity.
Qed.

Lemma append_session_rel (pn p : string) (st1 st2 : store) (item1 item2 : json * json)
    (acc1 acc2 : list SessionInfo) :
  st_mtime st1 = st_mtime st2 -> st_size st1 = st_size st2 ->
  fst item1 = fst item2 /\ same_session (snd item1) (snd item2) ->
  same_listing acc1 acc2 ->
  result_rel same_listing
    (Cursor.append_session pn p st1 item1 acc1)
    (Cursor.append_session pn p st2 item2 acc2).
Proof.
  destruct item1 as [sid1 sd1], item2 as [sid2 sd2]. simpl.
  intros Hm Hz [<- Hsd] Hacc. unfold Cursor.append_session.
  eapply result_rel_bind; [apply _extract_summary_rel; exact Hsd |].
  intros sum1 sum2 _. simpl. unfold same_listing in *.
  rewrite !map_app, Hacc. simpl. unfold metadata at 2 4. simpl.
  rewrite Hm, Hz. reflexivity.
Qed.

Lemma scan_workspace_rel (json_loads : string -> option json) (w1 w2 : world)
    (project_filter : option string) (e : dir_entry) (acc1 acc2 : list SessionInfo) :
  same_but_bodies json_loads w1 w2 ->
  same_listing acc1 acc2 ->
  result_rel same_listing
    (value (Cursor.scan_workspace json_loads w1 project_filter e acc1))
    (value (Cursor.scan_workspace json_loads w2 project_filter e acc2)).
Proof.
  intros (Hdir & _ & _ & Hfiles) Hacc. rewrite !scan_workspace_value, <- Hdir.
  destruct (negb (is_dir e)); [exact Hacc |]. cbv zeta.
  pose proof (Hfiles (storage_dir w1 ++ "/" ++ dir_name e ++ "/state.vscdb")) as Hst.
  pose proof (_get_chat_data_rel json_loads w1 w2 _ Hst) as Hcd.
  destruct (files w1 _) as [st1 |], (files w2 _) as [st2 |]; try contradiction;
    [| exact Hacc].
  destruct Hst as (Hm & Hz & _).
  destruct (Cursor._get_workspace_folder json_loads e) as [folder | ex]; cbn [bind];
    [| reflexivity].
  destruct (Cursor.filtered_out _ _); [exact Hacc |].
  eapply result_rel_bind; [exact Hcd |].
  intros cd1 cd2 Hcds.
  destruct Hcds as [| kv1 kv2 cd1 cd2 Hkv Hrest]; [exact Hacc |]. cbn [Dict.is_empty].
  eapply for_each_rel with (RA := fun kv1 kv2 =>
      fst kv1 = fst kv2 /\ same_session (snd kv1) (snd kv2));
    [constructor; assumption | | exact Hacc].
  intros x1 x2 a1 a2 Hx Ha. now apply append_session_rel.
Qed.

(** C8.  For two stores that differ only in the bodies of the messages of
    their sessions, [list_sessions] ends the same way in both: it raises the
    same exception, or it returns two listings with the same session ids,
    sources, projects, paths, modification times and sizes, in the same
    order. *)
Theorem list_sessions_ignores_bodies
    (json_loads : string -> option json) (w1 w2 : world)
    (project_filter : option string) :
  same_but_bodies json_loads w1 w2 ->
  result_rel same_listing
    (value (Cursor.list_sessions json_loads w1 project_filter))
    (value (Cursor.list_sessions json_loads w2 project_filter)).
Proof.
  intros Hw. pose proof Hw as (_ & Hex & Hit & _).
  unfold Cursor.list_sessions. rewrite <- Hex, <- Hit.
  destruct (negb (storage_exists w1)); [reflexivity |].
  rewrite !value_for_eachM.
  eapply for_each_rel with (RA := eq);
    [apply Forall2_same; reflexivity | | reflexivity].
  intros x1 x2 a1 a2 <- Ha. now apply scan_workspace_rel.
Qed.

Lemma chats_edited_same_but_bodies :
  same_but_bodies loads (world_of (ItemTable rows_chats)) (world_of (ItemTable rows_edited)).
Proof.
  repeat split. intros p. unfold world_of; cbn [files].
  destruct (p =? vscdb); [| exact I].
  repeat split. cbn [db same_database]. constructor; [| constructor].
  split; [reflexivity |]. right.
  exists "chats", "chats-edited", (JArr [chat_abc]), (JArr [chat_abc_edited]).
  repeat split; try discriminate.
  left. right. exists [chat_abc], [chat_abc_edited]. repeat split.
  constructor; [| constructor]. right.
  eexists _, _. split; [reflexivity |]. split; [reflexivity |].
  constructor; [split; reflexivity |]. constructor; [| constructor].
  split; [reflexivity |]. right.
  eexists _, _. split; [reflexivity |]. split; [reflexivity |].
  assert (Hmsg : forall r c1 c2, same_message (msg r c1) (msg r c2)).
  { intros r c1 c2. right. eexists _, _. split; [reflexivity |]. split; [reflexivity |].
    constructor; [split; [reflexivity | now right] |].
    constructor; [split; [reflexivity | now left] | constructor]. }
  constructor; [apply Hmsg |]. constructor; [apply Hmsg | constructor].
Qed.

Lemma list_sessions_ignores_bodies_witness :
  result_rel same_listing
    (value (Cursor.list_sessions loads (world_of (ItemTable rows_chats)) None))
    (value (Cursor.list_sessions loads (world_of (ItemTable rows_edited)) None)).
Proof.
  exact (list_sessions_ignores_bodies loads _ _ None chats_edited_same_but_bodies).
Defined.

(** The summary is outside this: without a title it is cut from the body of
    the first message, and differs between the two stores. *)
Example list_sessions_summary_from_first_body :
  map summary [session_abc] = [JStr "hi"] /\
  value (Cursor.list_sessions loads (world_of (ItemTable rows_chats)) None) =
    Ok [session_abc] /\
  option_map (map summary)
    (match value (Cursor.list_sessions loads (world_of (ItemTable rows_edited)) None) with
     | Ok l => Some l
     | Raise _ => None
     end) = Some [JStr "good morning"].
Proof. repeat split; reflexivity. Qed.

(* ================================================================== *)
(** * Further properties of the adapter *)

Import Facts.

(** ** _get_workspace_folder and _extract_summary *)

Lemma string_length_app (a b : string) :
  String.length (a ++ b) = String.length a + String.length b.
Proof. induction a as [| c a IH]; simpl; [reflexivity | now rewrite IH]. Qed.

Lemma substring_0_length (s : string) : substring 0 (String.length s) s = s.
Proof. induction s as [| c s IH]; simpl; [reflexivity | now rewrite IH]. Qed.

Lemma take_split (n : nat) (s : string) :
  n <= String.length s ->
  String.length (Py.take n s) = n /\ exists tail, s = Py.take n s ++ tail.
Proof.
  unfold Py.take. revert s; induction n as [| n IH]; intros s Hn.
  - destruct s; simpl; split; try reflexivity; eexists; reflexivity.
  - destruct s as [| c s]; simpl in *; [lia |].
    destruct (IH s) as [Hl [tail Ht]]; [lia |].
    split; [now rewrite Hl |]. exists tail. now rewrite <- Ht.
Qed.

(** The project folder of a workspace.  Without a descriptor, with one that
    does not decode, or with an absent, null or empty [folder], there is
    none; a [folder] that starts with [file://] is returned without that
    prefix, and any other non-empty str as it is. *)
Theorem _get_workspace_folder_cases
    (json_loads : string -> option json) (e : dir_entry) :
  (workspace_json e = None -> Cursor._get_workspace_folder json_loads e = Ok None) /\
  (forall text, workspace_json e = Some text -> json_loads text = None ->
     Cursor._get_workspace_folder json_loads e = Ok None) /\
  (forall text data,
     workspace_json e = Some text -> json_loads text = Some (JObj data) ->
     (Py.truthy (Py.dict_get data "folder") = false ->
      Cursor._get_workspace_folder json_loads e = Ok None) /\
     (forall rest, Py.dict_get data "folder" = JStr ("file://" ++ rest) ->
      Cursor._get_workspace_folder json_loads e = Ok (Some rest)) /\
     (forall f, Py.dict_get data "folder" = JStr f -> f <> "" ->
      Py.startswith f "file://" = false ->
      Cursor._get_workspace_folder json_loads e = Ok (Some f))).
Proof.
  unfold Cursor._get_workspace_folder. split; [| split].
  - intros ->. reflexivity.
  - intros text -> ->. reflexivity.
  - intros text data -> ->. split; [| split].
    + intros ->. reflexivity.
    + intros rest ->. cbn. rewrite Nat.sub_0_r, substring_0_length.
      destruct rest; reflexivity.
    + intros f -> Hf Hp. apply String.eqb_neq in Hf.
      cbn [Py.truthy]. rewrite Hf, Hp. reflexivity.
Qed.

Lemma _get_workspace_folder_cases_witness :
  Cursor._get_workspace_folder loads (mkDirEntry "h1" true (Some "descriptor")) =
  Ok (Some "/home/u/proj").
Proof.
  exact (proj1 (proj2 (proj2 (proj2 (_get_workspace_folder_cases loads
           (mkDirEntry "h1" true (Some "descriptor"))))
           "descriptor" [("folder", JStr "file:///home/u/proj")] eq_refl eq_refl))
         "/home/u/proj" eq_refl).
Defined.

(** The summary of a record.  A truthy [title] is the summary, whatever the
    messages.  Without one, and with a list of messages whose first is a
    dict with a str content [c], the summary is [c] when [c] has at most 60
    characters, and else its first 60 characters followed by three dots: it
    never has more than 63 characters.  Without title and messages there is
    no summary. *)
Theorem _extract_summary_cases (d : list (string * json)) :
  (Py.truthy (Py.dict_get d "title") = true ->
   Cursor._extract_summary (JObj d) = Ok (Py.dict_get d "title")) /\
  (Py.truthy (Py.dict_get d "title") = false ->
   Py.truthy (Py.dict_get_default d "messages" (JArr [])) = false ->
   Cursor._extract_summary (JObj d) = Ok JNull) /\
  (forall m rest c,
     Py.truthy (Py.dict_get d "title") = false ->
     Py.dict_get_default d "messages" (JArr []) = JArr (JObj m :: rest) ->
     Py.dict_get_default m "content" (JStr "") = JStr c ->
     exists s,
       Cursor._extract_summary (JObj d) = Ok (JStr s) /\
       String.length s <= 63 /\
       (String.length c <= 60 -> s = c) /\
       (60 < String.length c ->
        s = Py.take 60 c ++ "..." /\ String.length (Py.take 60 c) = 60 /\
        exists tail, c = Py.take 60 c ++ tail)).
Proof.
  unfold Cursor._extract_summary. split; [| split].
  - intros ->. reflexivity.
  - intros -> ->. reflexivity.
  - intros m rest c -> Hm Hc. rewrite Hm. cbn [Py.truthy Iter.first bind]. rewrite Hc.
    destruct (60 <? String.length c)%nat eqn:Hlen.
    + apply Nat.ltb_lt in Hlen.
      destruct (take_split 60 c) as [Hl Htail]; [lia |].
      eexists. split; [reflexivity |].
      split; [rewrite string_length_app, Hl; simpl; lia |].
      split; [lia | auto].
    + apply Nat.ltb_ge in Hlen. exists c.
      split; [reflexivity |]. split; [lia |]. split; [reflexivity | lia].
Qed.

Lemma _extract_summary_cases_witness :
  Cursor._extract_summary chat_abc = Ok (JStr "hi") /\
  Cursor._extract_summary composer_c1 = Ok (JStr "refactor").
Proof.
  split.
  - destruct (proj2 (proj2 (_extract_summary_cases
        [("id", JStr "abc");
         ("messages", JArr [msg "user" "hi"; msg "assistant" "hello"])]))
        [("role", JStr "user"); ("content", JStr "hi")]
        [msg "assistant" "hello"] "hi" eq_refl eq_refl eq_refl)
      as (s & Hs & _ & Hshort & _).
    unfold chat_abc. rewrite Hs, Hshort; [reflexivity | simpl; lia].
  - exact (proj1 (_extract_summary_cases [("title", JStr "refactor")]) eq_refl).
Defined.

(** ** _get_chat_data: the dict of sessions *)

Lemma key_eqb_refl (k : json) : Dict.hashable k = true -> Dict.key_eqb k k = true.
Proof.
  destruct k as [| b | z | s | l | m]; simpl; try discriminate; intros _.
  - reflexivity.
  - destruct b; reflexivity.
  - apply Z.eqb_refl.
  - apply String.eqb_refl.
Qed.

Lemma for_each_invariant {A S : Type} (P : S -> Prop) (body : A -> S -> result S)
    (l : list A) :
  (forall x s s', P s -> body x s = Ok s' -> P s') ->
  forall s s', P s -> for_each body l s = Ok s' -> P s'.
Proof.
  intros Hbody. induction l as [| x l IH]; intros s s' Hs; cbn [for_each].
  - intros H; inversion H; subst. exact Hs.
  - destruct (body x s) as [s1 |] eqn:Hx; cbn [bind]; [| discriminate].
    apply IH. eapply Hbody; eassumption.
Qed.

Lemma put_keys (Q : json -> Prop) (d : Dict.t) (k v : json) :
  Forall (fun kv => Q (fst kv)) d -> Q k ->
  Forall (fun kv => Q (fst kv)) (Dict.put d k v).
Proof.
  intros Hd Hk. induction Hd as [| [k' v'] d Hk' Hd IH]; simpl.
  - repeat constructor. exact Hk.
  - destruct (Dict.key_eqb k' k); constructor; assumption.
Qed.

Lemma put_well_keyed (d : Dict.t) (k v : json) :
  well_keyed d -> Dict.hashable k = true -> is_dict v = true ->
  well_keyed (Dict.put d k v).
Proof.
  intros [Hall Hdist] Hk Hv. split.
  - clear Hdist. induction Hall as [| [k' v'] d Hkv Hd IH]; simpl.
    + repeat constructor; assumption.
    + destruct (Dict.key_eqb k' k); constructor; try assumption.
      simpl in *. split; [apply Hkv | exact Hv].
  - clear Hall. induction Hdist as [| [k' v'] d Hhead Hd IH]; simpl.
    + repeat constructor.
    + destruct (Dict.key_eqb k' k) eqn:Hkk; constructor; try assumption.
      apply (put_keys (fun x => Dict.key_eqb k' x = false)); assumption.
Qed.

Lemma set_item_well_keyed (d d' : Dict.t) (k v : json) :
  well_keyed d -> is_dict v = true -> Dict.set_item d k v = Ok d' -> well_keyed d'.
Proof.
  unfold Dict.set_item. intros Hd Hv. destruct (Dict.hashable k) eqn:Hk; [| discriminate].
  intros H; inversion H; subst. now apply put_well_keyed.
Qed.

Lemma scan_document_well_keyed (key : string) (data : json) (d d' : Dict.t) :
  well_keyed d -> Cursor.scan_document key data d = Ok d' -> well_keyed d'.
Proof.
  assert (Hchat : forall prefix ic a a',
            well_keyed a -> Cursor.scan_chat prefix ic a = Ok a' -> well_keyed a').
  { intros prefix [i chat] a a' Ha. unfold Cursor.scan_chat.
    destruct chat as [| b | z | s | l | c]; try (intros H; inversion H; subst; exact Ha).
    destruct (Py.truthy _); [| intros H; inversion H; subst; exact Ha].
    now apply set_item_well_keyed. }
  assert (Hcomp : forall kc a a',
            well_keyed a -> Cursor.scan_composer kc a = Ok a' -> well_keyed a').
  { intros [cid comp] a a' Ha. unfold Cursor.scan_composer.
    destruct comp as [| b | z | s | l | c]; try (intros H; inversion H; subst; exact Ha).
    now apply set_item_well_keyed. }
  intros Hd. unfold Cursor.scan_document.
  destruct (key =? Cursor.chatdata_key).
  - destruct data as [| b | z | s | l | m]; try (intros H; inversion H; subst; exact Hd).
    + apply for_each_invariant; [apply Hchat | exact Hd].
    + destruct (Iter.iter _) as [tabs |]; cbn [bind]; [| discriminate].
      apply for_each_invariant; [apply Hchat | exact Hd].
  - destruct (key =? Cursor.composer_key); [| intros H; inversion H; subst; exact Hd].
    destruct data as [| b | z | s | l | m]; try (intros H; inversion H; subst; exact Hd).
    destruct (Iter.items _) as [composers |]; cbn [bind]; [| discriminate].
    apply for_each_invariant; [apply Hcomp | exact Hd].
Qed.

Lemma scan_row_well_keyed (json_loads : string -> option json)
    (row : string * option string) (d d' : Dict.t) :
  well_keyed d -> Cursor.scan_row json_loads row d = Ok d' -> well_keyed d'.
Proof.
  intros Hd. destruct row as [key [text |]]; simpl;
    [| intros H; inversion H; subst; exact Hd].
  destruct (text =? ""); [intros H; inversion H; subst; exact Hd |].
  destruct (json_loads text) as [data |]; [| intros H; inversion H; subst; exact Hd].
  now apply scan_document_well_keyed.
Qed.

Lemma find_member (d : Dict.t) (k v : json) :
  well_keyed d -> In (k, v) d -> Dict.find d k = Some v.
Proof.
  intros [Hall Hdist]. induction Hdist as [| [k' v'] d Hhead Hd IH]; [contradiction |].
  inversion Hall as [| ? ? [Hk' _] Hall']; subst. simpl in Hk'.
  intros [Heq | Hin]; simpl.
  - inversion Heq; subst. now rewrite key_eqb_refl.
  - rewrite Forall_forall in Hhead. pose proof (Hhead (k, v) Hin) as Hne.
    simpl in Hne. rewrite Hne. now apply IH.
Qed.

Lemma _get_chat_data_keyed
    (json_loads : string -> option json) (w : world) (p : string) (chat_data : Dict.t) :
  value (Cursor._get_chat_data json_loads w p) = Ok chat_data -> well_keyed chat_data.
Proof.
  intros Hv.
  assert (Hnil : well_keyed []) by (split; constructor).
  rewrite _get_chat_data_value in Hv.
  destruct (db_at w p) as [| | rows]; try (inversion Hv; subst; exact Hnil).
  destruct (for_each _ _ _) as [d | e] eqn:Hrows.
  - inversion Hv; subst.
    eapply for_each_invariant; [| exact Hnil | exact Hrows].
    intros x s s'. apply scan_row_well_keyed.
  - destruct e; inversion Hv; subst. exact Hnil.
Qed.

Lemma well_keyed_lookup (d : Dict.t) (k v : json) :
  well_keyed d -> In (k, v) d ->
  Dict.contains d k = Ok true /\ Dict.get_item d k = Ok v.
Proof.
  intros Hwk Hin. pose proof (find_member _ _ _ Hwk Hin) as Hfind.
  destruct Hwk as [Hall _]. rewrite Forall_forall in Hall.
  destruct (Hall _ Hin) as [Hk _]. simpl in Hk.
  unfold Dict.contains, Dict.get_item. rewrite Hk, Hfind. auto.
Qed.

(** The dict that [_get_chat_data] returns has hashable ids, no two of them
    equal, and a dict under each; looking up any of its ids finds the record
    stored with it. *)
Theorem _get_chat_data_well_keyed
    (json_loads : string -> option json) (w : world) (p : string) (chat_data : Dict.t) :
  value (Cursor._get_chat_data json_loads w p) = Ok chat_data ->
  well_keyed chat_data /\
  forall k v, In (k, v) chat_data ->
              Dict.contains chat_data k = Ok true /\ Dict.get_item chat_data k = Ok v.
Proof.
  intros Hv. pose proof (_get_chat_data_keyed _ _ _ _ Hv) as Hwk.
  split; [exact Hwk |].
  intros k v Hin. now apply well_keyed_lookup.
Qed.

Lemma _get_chat_data_well_keyed_witness :
  Dict.get_item [(JStr "composer-c1", composer_c1)] (JStr "composer-c1") = Ok composer_c1.
Proof.
  exact (proj2 (proj2 (_get_chat_data_well_keyed loads (world_of (ItemTable rows_garbled))
                         vscdb [(JStr "composer-c1", composer_c1)] eq_refl)
                  (JStr "composer-c1") composer_c1 (or_introl eq_refl))).
Defined.

(** A row contributes nothing, and leaves what the other rows give as it
    is, when its value is NULL, empty or a text on which [json.loads] raises
    [JSONDecodeError], or when [json.loads] returns a document for its value
    and its key is neither the chat key nor the composer key. *)
Theorem _get_chat_data_skips_row
    (json_loads : string -> option json) (w1 w2 : world) (p key : string)
    (v : option string) (before after : list (string * option string)) :
  db_at w1 p = ItemTable (before ++ (key, v) :: after) ->
  db_at w2 p = ItemTable (before ++ after) ->
  (match v with
   | None => True
   | Some text => text = "" \/ json_loads text = None
   end \/
   (key <> Cursor.chatdata_key /\ key <> Cursor.composer_key /\
    exists text data, v = Some text /\ json_loads text = Some data)) ->
  value (Cursor._get_chat_data json_loads w1 p) =
  value (Cursor._get_chat_data json_loads w2 p).
Proof.
  intros H1 H2 Hskip. rewrite !_get_chat_data_value, H1, H2.
  rewrite !filter_app. cbn [filter fst].
  destruct (existsb (String.eqb key) Cursor.known_keys); [| reflexivity].
  rewrite !for_each_app. cbn [for_each].
  destruct (for_each (Cursor.scan_row json_loads) (filter _ before) []) as [acc | e];
    cbn [bind]; [| reflexivity].
  assert (Hrow : Cursor.scan_row json_loads (key, v) acc = Ok acc).
  { destruct Hskip as [Hv | (Hk1 & Hk2 & text & data & -> & Hdata)].
    - now apply scan_row_skips_undecodable.
    - apply String.eqb_neq in Hk1, Hk2. unfold Cursor.scan_row.
      destruct (text =? ""); [reflexivity |].
      rewrite Hdata. unfold Cursor.scan_document. now rewrite Hk1, Hk2. }
  rewrite Hrow. reflexivity.
Qed.

Lemma _get_chat_data_skips_row_witness :
  value (Cursor._get_chat_data loads (world_of (ItemTable rows_garbled)) vscdb) =
  value (Cursor._get_chat_data loads (world_of (ItemTable rows_composers)) vscdb).
Proof.
  refine (_get_chat_data_skips_row loads (world_of (ItemTable rows_garbled))
            (world_of (ItemTable rows_composers)) vscdb Cursor.chatdata_key
            (Some "{not json") [] rows_composers eq_refl eq_refl _).
  left. right. reflexivity.
Defined.

(** ** The connections of a call *)

Lemma events_bindM {A B : Type} (m : M A) (k : A -> M B) :
  events (bindM m k) =
  (events m ++ match value m with
               | Ok a => events (k a)
               | Raise _ => []
               end)%list.
Proof.
  unfold events, value, bindM. destruct m as [[a | e] t]; simpl.
  - destruct (k a); reflexivity.
  - now rewrite app_nil_r.
Qed.

Lemma _get_chat_data_trace
    (json_loads : string -> option json) (w : world) (p : string) :
  events (Cursor._get_chat_data json_loads w p) =
    match db_at w p with
    | Unopenable => []
    | Unreadable => [Connect p]
    | ItemTable rows =>
        match for_each (Cursor.scan_row json_loads)
                (filter (fun row => existsb (String.eqb (fst row)) Cursor.known_keys) rows) []
        with
        | Ok _ => [Connect p; Close p]
        | Raise _ => [Connect p]
        end
    end.
Proof.
  unfold Cursor._get_chat_data, Cursor.sqlite3_connect, Cursor.select_rows.
  destruct (db_at w p) as [| | rows]; try reflexivity.
  cbv [bindM emit retM lift except_sqlite Cursor.conn_db Cursor.conn_path
       Cursor.conn_close events].
  destruct (for_each _ _ _) as [sessions | []]; reflexivity.
Qed.

(** A call of [_get_chat_data] opens no connection when [sqlite3.connect]
    raises, and else one connection, to the path it is given; it closes it
    when the SELECT and the loop over the rows end without an exception, and
    only then.  [read_session] causes the events of its one call of
    [_get_chat_data], on the path of the session. *)
Theorem _get_chat_data_events
    (json_loads : string -> option json) (w : world) (p : string) (session : SessionInfo) :
  events (Cursor._get_chat_data json_loads w p) =
    match db_at w p with
    | Unopenable => []
    | Unreadable => [Connect p]
    | ItemTable rows =>
        match for_each (Cursor.scan_row json_loads)
                (filter (fun row => existsb (String.eqb (fst row)) Cursor.known_keys) rows) []
        with
        | Ok _ => [Connect p; Close p]
        | Raise _ => [Connect p]
        end
    end /\
  events (Cursor.read_session json_loads w session) =
  events (Cursor._get_chat_data json_loads w (path session)).
Proof.
  split; [apply _get_chat_data_trace |].
  unfold Cursor.read_session. rewrite events_bindM.
  destruct (value _); cbn [events lift snd]; now rewrite app_nil_r.
Qed.

(** ** list_sessions: where a listed session comes from *)

Lemma for_each_append_session_listed (pn p : string) (st : store) (items all : Dict.t)
    (acc acc1 : list SessionInfo) :
  incl items all ->
  for_each (Cursor.append_session pn p st) items acc = Ok acc1 ->
  exists new,
    acc1 = (acc ++ new)%list /\
    Forall (fun s => exists sd,
              In (session_id s, sd) all /\
              Cursor._extract_summary sd = Ok (summary s) /\
              source s = "cursor" /\ project s = pn /\ path s = p /\
              modified s = st_mtime st /\ size s = st_size st) new.
Proof.
  revert acc acc1. induction items as [| [sid sd] items IH]; intros acc acc1 Hincl;
    cbn [for_each].
  - intros H; inversion H; subst. exists []. now rewrite app_nil_r.
  - unfold Cursor.append_session at 1.
    destruct (Cursor._extract_summary sd) as [sm | ex] eqn:Hsm; cbn [bind]; [| discriminate].
    intros H. destruct (IH _ _ (fun x Hx => Hincl x (or_intror Hx)) H) as (new & -> & Hnew).
    eexists (_ :: new). rewrite <- app_assoc. split; [reflexivity |].
    constructor; [| exact Hnew].
    exists sd. cbn. repeat split; try assumption. apply Hincl. now left.
Qed.

Lemma scan_workspace_listed
    (json_loads : string -> option json) (w : world) (project_filter : option string)
    (e : dir_entry) (acc acc1 : list SessionInfo) :
  value (Cursor.scan_workspace json_loads w project_filter e acc) = Ok acc1 ->
  exists new, acc1 = (acc ++ new)%list /\
              Forall (listed_from json_loads w project_filter e) new.
Proof.
  assert (Hnone : forall a a1 : list SessionInfo, Ok a = Ok a1 ->
            exists new, a1 = (a ++ new)%list /\
                        Forall (listed_from json_loads w project_filter e) new).
  { intros a a1 H; inversion H; subst. exists []. now rewrite app_nil_r. }
  rewrite scan_workspace_value.
  destruct (is_dir e) eqn:Hdir; cbn [negb]; [| apply Hnone]. cbv zeta.
  fold (vscdb_path w e).
  destruct (files w (vscdb_path w e)) as [st |] eqn:Hst; [| apply Hnone].
  destruct (Cursor._get_workspace_folder json_loads e) as [folder | ex] eqn:Hf;
    cbn [bind]; [| discriminate].
  fold (label_of folder e).
  destruct (Cursor.filtered_out project_filter (label_of folder e)) eqn:Hfilter;
    [apply Hnone |].
  destruct (value (Cursor._get_chat_data json_loads w (vscdb_path w e))) as [cd | ex] eqn:Hcd;
    cbn [bind]; [| discriminate].
  destruct (Dict.is_empty cd); [apply Hnone |].
  intros H.
  destruct (for_each_append_session_listed _ _ _ cd cd _ _ (incl_refl cd) H)
    as (new & -> & Hnew).
  exists new. split; [reflexivity |].
  eapply Forall_impl; [| exact Hnew]. cbv beta.
  intros s (sd & Hin & Hsm & Hsrc & Hpn & Hp & Hm & Hz).
  split; [exact Hdir |]. exists st, folder, cd, sd. repeat split; assumption.
Qed.

Lemma list_sessions_listed
    (json_loads : string -> option json) (w : world) (project_filter : option string)
    (out : list SessionInfo) :
  value (Cursor.list_sessions json_loads w project_filter) = Ok out ->
  Forall (fun s => exists e, In e (iterdir w) /\
                             listed_from json_loads w project_filter e s) out.
Proof.
  unfold Cursor.list_sessions.
  destruct (storage_exists w); cbn [negb].
  2: { intros H; inversion H; subst. constructor. }
  rewrite value_for_eachM.
  assert (Hgen : forall es acc res,
            incl es (iterdir w) ->
            Forall (fun s => exists e, In e (iterdir w) /\
                      listed_from json_loads w project_filter e s) acc ->
            for_each (fun x a => value (Cursor.scan_workspace json_loads w project_filter x a))
              es acc = Ok res ->
            Forall (fun s => exists e, In e (iterdir w) /\
                      listed_from json_loads w project_filter e s) res).
  { induction es as [| e es IH]; intros acc res Hincl Hacc; cbn [for_each].
    - intros H; inversion H; subst. exact Hacc.
    - destruct (value (Cursor.scan_workspace json_loads w project_filter e acc))
        as [acc1 |] eqn:He; cbn [bind]; [| discriminate].
      destruct (scan_workspace_listed _ _ _ _ _ _ He) as (new & -> & Hnew).
      apply IH; [intros x Hx; apply Hincl; now right |].
      apply Forall_app. split; [exact Hacc |].
      eapply Forall_impl; [| exact Hnew]. cbv beta. intros s Hs.
      exists e. split; [apply Hincl; now left | exact Hs]. }
  apply Hgen; [apply incl_refl | constructor].
Qed.

(** Every session that [list_sessions] returns comes from a directory of the
    storage that has a [state.vscdb]: its path is that file, its [modified]
    and [size] are the file's, its project is the label of the workspace
    (which the filter lets through), its source is [cursor], its id is a key
    of the chat data of the file and its summary the summary of the record
    under that key. *)
Theorem list_sessions_sound
    (json_loads : string -> option json) (w : world) (project_filter : option string)
    (out : list SessionInfo) :
  value (Cursor.list_sessions json_loads w project_filter) = Ok out ->
  forall s, In s out ->
  exists e, In e (iterdir w) /\ listed_from json_loads w project_filter e s.
Proof.
  intros Hout. pose proof (list_sessions_listed _ _ _ _ Hout) as Hall.
  rewrite Forall_forall in Hall. exact Hall.
Qed.

Lemma list_sessions_sound_witness :
  exists e, In e (iterdir (world_of (ItemTable rows_chats))) /\
            listed_from loads (world_of (ItemTable rows_chats)) None e session_abc.
Proof.
  exact (list_sessions_sound loads (world_of (ItemTable rows_chats)) None [session_abc]
           eq_refl session_abc (or_introl eq_refl)).
Defined.

(** A session that [list_sessions] returns can be read back: on the same
    store, [read_session] finds the record under the id of the session and
    returns what the loop over its messages gives. *)
Theorem list_sessions_then_read_session
    (json_loads : string -> option json) (w : world) (project_filter : option string)
    (out : list SessionInfo) (s : SessionInfo) :
  value (Cursor.list_sessions json_loads w project_filter) = Ok out ->
  In s out ->
  exists chat_data sd,
    value (Cursor._get_chat_data json_loads w (path s)) = Ok chat_data /\
    In (session_id s, sd) chat_data /\
    value (Cursor.read_session json_loads w s) = Cursor.read_messages sd.
Proof.
  intros Hout Hin.
  destruct (proj1 (Forall_forall _ _) (list_sessions_listed _ _ _ _ Hout) s Hin) as (e & _ & _ & st & folder & cd & sd & H).
  destruct H as (_ & _ & _ & Hcd & Hmem & _ & _ & _ & Hpath & _).
  rewrite <- Hpath in Hcd. exists cd, sd. split; [exact Hcd |]. split; [exact Hmem |].
  destruct (well_keyed_lookup _ _ _ (_get_chat_data_keyed _ _ _ _ Hcd) Hmem) as [Hc Hg].
  unfold Cursor.read_session. rewrite value_bindM, Hcd. cbn [bind]. rewrite value_lift.
  destruct cd as [| kv cd]; [contradiction |]. cbn [Dict.is_empty].
  rewrite Hc. cbn [bind negb]. rewrite Hg. reflexivity.
Qed.

Lemma list_sessions_then_read_session_witness :
  exists chat_data sd,
    value (Cursor._get_chat_data loads (world_of (ItemTable rows_mixed)) (path session_mix)) =
      Ok chat_data /\
    In (session_id session_mix, sd) chat_data /\
    value (Cursor.read_session loads (world_of (ItemTable rows_mixed)) session_mix) =
      Cursor.read_messages sd.
Proof.
  exact (list_sessions_then_read_session loads (world_of (ItemTable rows_mixed)) None
           [session_mix] session_mix eq_refl (or_introl eq_refl)).
Defined.

Lemma list_sessions_filter_project
    (json_loads : string -> option json) (w : world) (P : string)
    (out : list SessionInfo) :
  P <> "" ->
  value (Cursor.list_sessions json_loads w (Some P)) = Ok out ->
  Forall (fun s => project s = P) out.
Proof.
  intros HP Hout. apply Forall_forall. intros s Hin.
  destruct (proj1 (Forall_forall _ _) (list_sessions_listed _ _ _ _ Hout) s Hin)
    as (e & _ & _ & st & folder & cd & sd & H).
  destruct H as (_ & _ & Hfilter & _ & _ & _ & _ & Hproj & _).
  rewrite Hproj. unfold Cursor.filtered_out in Hfilter.
  apply String.eqb_neq in HP. rewrite HP in Hfilter. cbn [negb andb] in Hfilter.
  destruct (label_of folder e =? P) eqn:Hl; [| discriminate].
  now apply String.eqb_eq in Hl.
Qed.

(** With a filter that is not empty, every session that [list_sessions]
    returns has the project of the filter, whether or not the unfiltered
    listing would return; so have the sessions of
    [get_cursor_sessions_for_cwd], the working directory being the filter. *)
Theorem list_sessions_filter_sound
    (json_loads : string -> option json) (w : world) (P : string)
    (out : list SessionInfo) :
  P <> "" ->
  (value (Cursor.list_sessions json_loads w (Some P)) = Ok out ->
   Forall (fun s => project s = P) out) /\
  (value (Cursor.get_cursor_sessions_for_cwd json_loads w P) = Ok out ->
   Forall (fun s => project s = P) out).
Proof.
  intros HP. split.
  - now apply list_sessions_filter_project.
  - unfold Cursor.get_cursor_sessions_for_cwd. now apply list_sessions_filter_project.
Qed.

Lemma list_sessions_filter_sound_witness :
  Forall (fun s => project s = "/home/u/proj") [session_abc].
Proof.
  refine (proj1 (list_sessions_filter_sound loads (world_of (ItemTable rows_chats))
                   "/home/u/proj" [session_abc] _) eq_refl).
  discriminate.
Defined.

(** ** list_sessions: the stores it opens *)

Lemma events_for_eachM_in {A S : Type} (body : A -> S -> M S) (l : list A) (s : S)
    (ev : event) :
  In ev (events (for_eachM body l s)) ->
  exists x s0, In x l /\ In ev (events (body x s0)).
Proof.
  revert s. induction l as [| x l IH]; intros s; cbn [for_eachM].
  - intros [].
  - rewrite events_bindM. intros H. apply in_app_or in H. destruct H as [H | H].
    + exists x, s. split; [now left | exact H].
    + destruct (value (body x s)) as [s1 |]; [| contradiction].
      destruct (IH _ H) as (y & s0 & Hy & Hev). exists y, s0. split; [now right | exact Hev].
Qed.

Lemma events_get_chat_data_in
    (json_loads : string -> option json) (w : world) (p : string) (ev : event) :
  In ev (events (Cursor._get_chat_data json_loads w p)) ->
  ev = Connect p \/ ev = Close p.
Proof.
  rewrite _get_chat_data_trace.
  destruct (db_at w p) as [| | rows]; simpl; [tauto | intuition congruence |].
  destruct (for_each _ _ _); simpl; intuition congruence.
Qed.

(** [list_sessions] connects only to the [state.vscdb] of directories of the
    storage whose label passes the filter: with a filter [P] that is not
    empty, no store of a workspace with another label is opened. *)
Theorem list_sessions_opens_only_filtered
    (json_loads : string -> option json) (w : world) (project_filter : option string)
    (p : string) :
  In (Connect p) (events (Cursor.list_sessions json_loads w project_filter)) ->
  storage_exists w = true /\
  exists e folder,
    In e (iterdir w) /\ is_dir e = true /\ p = vscdb_path w e /\
    files w p <> None /\
    Cursor._get_workspace_folder json_loads e = Ok folder /\
    Cursor.filtered_out project_filter (label_of folder e) = false /\
    (forall P, project_filter = Some P -> P <> "" -> label_of folder e = P).
Proof.
  unfold Cursor.list_sessions.
  destruct (storage_exists w); cbn [negb]; [| intros []].
  intros H. split; [reflexivity |].
  destruct (events_for_eachM_in _ _ _ _ H) as (e & acc & He & Hev). clear H.
  exists e. unfold Cursor.scan_workspace in Hev.
  destruct (is_dir e) eqn:Hdir; cbn [negb] in Hev; [| contradiction].
  fold (vscdb_path w e) in Hev.
  destruct (files w (vscdb_path w e)) as [st |] eqn:Hst; [| contradiction].
  rewrite events_bindM in Hev. cbn [events lift snd app] in Hev. rewrite value_lift in Hev.
  destruct (Cursor._get_workspace_folder json_loads e) as [folder |] eqn:Hf;
    [| contradiction].
  fold (label_of folder e) in Hev. exists folder.
  destruct (Cursor.filtered_out project_filter (label_of folder e)) eqn:Hfilter;
    [contradiction |].
  rewrite events_bindM in Hev. apply in_app_or in Hev.
  assert (Hp : p = vscdb_path w e).
  { destruct Hev as [Hev | Hev].
    - apply events_get_chat_data_in in Hev. destruct Hev as [Hev | Hev]; congruence.
    - destruct (value _) as [cd |]; [| contradiction].
      destruct (Dict.is_empty cd); contradiction. }
  subst p. repeat split; try assumption; try congruence.
  intros P -> HP. unfold Cursor.filtered_out in Hfilter.
  apply String.eqb_neq in HP. rewrite HP in Hfilter. cbn [negb andb] in Hfilter.
  destruct (label_of folder e =? P) eqn:Hl; [| discriminate].
  now apply String.eqb_eq in Hl.
Qed.

Lemma list_sessions_opens_only_filtered_witness :
  storage_exists (world_of (ItemTable rows_chats)) = true /\
  exists e folder,
    In e (iterdir (world_of (ItemTable rows_chats))) /\ is_dir e = true /\
    vscdb = vscdb_path (world_of (ItemTable rows_chats)) e /\
    files (world_of (ItemTable rows_chats)) vscdb <> None /\
    Cursor._get_workspace_folder loads e = Ok folder /\
    Cursor.filtered_out (Some "/home/u/proj") (label_of folder e) = false /\
    (forall P, Some "/home/u/proj" = Some P -> P <> "" -> label_of folder e = P).
Proof.
  apply (list_sessions_opens_only_filtered loads (world_of (ItemTable rows_chats))
           (Some "/home/u/proj") vscdb).
  left. reflexivity.
Defined.

(** ** read_session: the shape of the entries *)

Lemma lower_char_idempotent (c : ascii) :
  Py.lower_char (Py.lower_char c) = Py.lower_char c.
Proof.
  destruct c as [[] [] [] [] [] [] [] []]; reflexivity.
Qed.

Lemma lower_idempotent (s : string) : Py.lower (Py.lower s) = Py.lower s.
Proof.
  induction s as [| c s IH]; simpl; [reflexivity |].
  now rewrite lower_char_idempotent, IH.
Qed.

Lemma _normalize_role_lower (role : json) (r : string) :
  Cursor._normalize_role role = Ok r -> Py.lower r = r.
Proof.
  destruct role as [| b | z | x | l | m]; try discriminate.
  rewrite _normalize_role_str.
  destruct (Py.lower x =? "human"); [intros H; inversion H; reflexivity |].
  destruct (Py.lower x =? "ai"); [intros H; inversion H; reflexivity |].
  destruct (Py.lower x =? "system"); [intros H; inversion H; reflexivity |].
  intros H; inversion H. apply lower_idempotent.
Qed.

(** A role that [_normalize_role] returns is lower-case, is none of the
    aliases [human], [ai] and [system], and is left as it is when it is
    normalized again. *)
Theorem _normalize_role_idempotent (role : json) (r : string) :
  Cursor._normalize_role role = Ok r ->
  Cursor._normalize_role (JStr r) = Ok r /\
  Py.lower r = r /\ r <> "human" /\ r <> "ai" /\ r <> "system".
Proof.
  intros H. pose proof (_normalize_role_lower role r H) as Hlow.
  destruct role as [| b | z | x | l | m]; try discriminate.
  rewrite _normalize_role_str in H. rewrite _normalize_role_str, Hlow.
  destruct (Py.lower x =? "human") eqn:H1.
  { inversion H; subst. repeat split; discriminate. }
  destruct (Py.lower x =? "ai") eqn:H2.
  { inversion H; subst. repeat split; discriminate. }
  destruct (Py.lower x =? "system") eqn:H3.
  { inversion H; subst. repeat split; discriminate. }
  inversion H; subst. rewrite H1, H2, H3.
  apply String.eqb_neq in H1, H2, H3. repeat split; assumption.
Qed.

Lemma _normalize_role_idempotent_witness :
  Cursor._normalize_role (JStr "user") = Ok "user" /\ Py.lower "user" = "user".
Proof.
  split.
  - exact (proj1 (_normalize_role_idempotent (JStr "Human") "user" eq_refl)).
  - exact (proj1 (proj2 (_normalize_role_idempotent (JStr "Human") "user" eq_refl))).
Defined.

Lemma text_entry_cursor_entry (role : json) (r : string) (c ts : json) :
  Cursor._normalize_role role = Ok r -> cursor_entry (text_entry r c ts).
Proof.
  intros H. pose proof (_normalize_role_lower role r H) as Hl.
  unfold cursor_entry, text_entry; cbn. repeat split; try assumption.
  intros [F | F]; now elim F.
Qed.

Lemma append_part_cursor_entry (role ts part : json) (acc acc' : list SessionEntry) :
  Forall cursor_entry acc ->
  Cursor.append_part role ts part acc = Ok acc' ->
  Forall cursor_entry acc' /\ List.length acc' <= S (List.length acc).
Proof.
  intros Hacc.
  assert (Hsame : Ok acc = Ok acc' ->
            Forall cursor_entry acc' /\ List.length acc' <= S (List.length acc)).
  { intros H; inversion H; subst. split; [exact Hacc | lia]. }
  assert (Hone : forall e, cursor_entry e -> Ok (acc ++ [e])%list = Ok acc' ->
            Forall cursor_entry acc' /\ List.length acc' <= S (List.length acc)).
  { intros e He H; inversion H; subst. split.
    - apply Forall_app. split; [exact Hacc | constructor; [exact He | constructor]].
    - rewrite length_app. simpl. lia. }
  assert (Htext : forall c,
            (r <- Cursor._normalize_role role ;; Ok (acc ++ [text_entry r c ts])%list) =
            Ok acc' ->
            Forall cursor_entry acc' /\ List.length acc' <= S (List.length acc)).
  { intros c. destruct (Cursor._normalize_role role) as [r |] eqn:Hr; cbn [bind];
      [| discriminate].
    apply Hone. eapply text_entry_cursor_entry; eassumption. }
  unfold Cursor.append_part.
  destruct part as [| b | z | s | l | p]; try exact Hsame; [apply Htext |].
  destruct (Py.eq_str (Py.dict_get p "type") "text"); [apply Htext |].
  destruct (Py.eq_str (Py.dict_get p "type") "tool_use").
  { apply Hone. unfold cursor_entry, tool_entry; cbn. repeat split. }
  destruct (Py.eq_str (Py.dict_get p "type") "tool_result"); [| exact Hsame].
  apply Hone. unfold cursor_entry, text_entry; cbn. repeat split.
  intros [F | F]; now elim F.
Qed.

Lemma for_each_append_part_cursor_entry (role ts : json) (parts : list json)
    (acc acc' : list SessionEntry) :
  Forall cursor_entry acc ->
  for_each (Cursor.append_part role ts) parts acc = Ok acc' ->
  Forall cursor_entry acc' /\ List.length acc' <= List.length acc + List.length parts.
Proof.
  revert acc. induction parts as [| part parts IH]; intros acc Hacc; cbn [for_each].
  - intros H; inversion H; subst. split; [exact Hacc | lia].
  - destruct (Cursor.append_part role ts part acc) as [acc1 |] eqn:Hp; cbn [bind];
      [| discriminate].
    destruct (append_part_cursor_entry _ _ _ _ _ Hacc Hp) as [H1 L1].
    intros H. destruct (IH _ H1 H) as [H2 L2]. split; [exact H2 | simpl; lia].
Qed.

Lemma append_message_cursor_entry (msg : json) (acc acc' : list SessionEntry) :
  Forall cursor_entry acc ->
  Cursor.append_message msg acc = Ok acc' ->
  Forall cursor_entry acc' /\ List.length acc' <= List.length acc + slots msg.
Proof.
  intros Hacc. unfold Cursor.append_message, slots.
  destruct msg as [| b | z | s | l | m]; try discriminate.
  destruct (Py.dict_get_default m "content" (JStr "")) as [| b | z | s | parts | p];
    try (intros H; inversion H; subst; split; [exact Hacc | lia]).
  - intros H.
    destruct (append_part_cursor_entry (Py.dict_get_default m "role" (JStr "user"))
                (Py.dict_get m "timestamp") (JStr s) acc acc' Hacc H) as [H1 L1].
    split; [exact H1 | lia].
  - now apply for_each_append_part_cursor_entry.
Qed.

Lemma for_each_append_message_cursor_entry (msgs : list json)
    (acc acc' : list SessionEntry) :
  Forall cursor_entry acc ->
  for_each Cursor.append_message msgs acc = Ok acc' ->
  Forall cursor_entry acc' /\
  List.length acc' <= List.length acc + list_sum (map slots msgs).
Proof.
  revert acc. induction msgs as [| msg msgs IH]; intros acc Hacc; cbn [for_each].
  - intros H; inversion H; subst. split; [exact Hacc | simpl; lia].
  - destruct (Cursor.append_message msg acc) as [acc1 |] eqn:Hm; cbn [bind];
      [| discriminate].
    destruct (append_message_cursor_entry _ _ _ Hacc Hm) as [H1 L1].
    intros H. destruct (IH _ H1 H) as [H2 L2]. split; [exact H2 | simpl; lia].
Qed.

(** Every entry that [read_session] returns has [is_error] false and no
    model, a lower-case role, and a tool name or input only under the role
    [assistant]. *)
Theorem read_session_entries_shape
    (json_loads : string -> option json) (w : world) (session : SessionInfo)
    (entries : list SessionEntry) :
  value (Cursor.read_session json_loads w session) = Ok entries ->
  Forall cursor_entry entries.
Proof.
  unfold Cursor.read_session. rewrite value_bindM.
  destruct (value (Cursor._get_chat_data json_loads w (path session))) as [cd |];
    cbn [bind]; [| discriminate].
  rewrite value_lift.
  destruct (Dict.is_empty cd); [intros H; inversion H; constructor |].
  destruct (Dict.contains cd (session_id session)) as [found |]; cbn [bind];
    [| discriminate].
  destruct found; cbn [negb]; [| intros H; inversion H; constructor].
  destruct (Dict.get_item cd (session_id session)) as [sd |]; cbn [bind];
    [| discriminate].
  unfold Cursor.read_messages. destruct sd as [| b | z | s | l | d]; try discriminate.
  destruct (Iter.iter _) as [msgs |]; cbn [bind]; [| discriminate].
  intros H. exact (proj1 (for_each_append_message_cursor_entry msgs [] entries
                            (Forall_nil _) H)).
Qed.

Lemma read_session_entries_shape_witness :
  Forall cursor_entry (map snd (Origin.of_messages mixed_messages)).
Proof.
  exact (read_session_entries_shape loads (world_of (ItemTable rows_mixed)) session_mix
           _ eq_refl).
Defined.

(** A part adds at most one entry: the entries of a record are never more
    than the places its messages offer, the length of a list content and one
    for any other content. *)
Theorem read_messages_length
    (d : list (string * json)) (msgs : list json) (entries : list SessionEntry) :
  Iter.iter (Py.dict_get_default d "messages" (JArr [])) = Ok msgs ->
  Cursor.read_messages (JObj d) = Ok entries ->
  List.length entries <= list_sum (map slots msgs).
Proof.
  intros Hm. unfold Cursor.read_messages. rewrite Hm. cbn [bind]. intros H.
  exact (proj2 (for_each_append_message_cursor_entry msgs [] entries (Forall_nil _) H)).
Qed.

Lemma read_messages_length_witness :
  List.length (map snd (Origin.of_messages mixed_messages)) <= 8.
Proof.
  exact (read_messages_length mixed_fields mixed_messages _ eq_refl eq_refl).
Defined.

(** ** list_all_sessions: ties and exceptions *)

Lemma filter_insert_by_modified (t : Z) (x : SessionInfo) (l : list SessionInfo) :
  filter (fun s => (modified s =? t)%Z) (Registry.insert_by_modified x l) =
  filter (fun s => (modified s =? t)%Z) (x :: l).
Proof.
  induction l as [| y l IH]; [reflexivity |].
  cbn [Registry.insert_by_modified].
  destruct (modified x <? modified y)%Z eqn:Hxy; [| reflexivity].
  apply Z.ltb_lt in Hxy. cbn [filter] in *. rewrite IH.
  destruct (modified y =? t)%Z eqn:Hy; destruct (modified x =? t)%Z eqn:Hx;
    try reflexivity.
  apply Z.eqb_eq in Hy, Hx. lia.
Qed.

Lemma filter_sorted_by_modified_desc (t : Z) (l : list SessionInfo) :
  filter (fun s => (modified s =? t)%Z) (Registry.sorted_by_modified_desc l) =
  filter (fun s => (modified s =? t)%Z) l.
Proof.
  induction l as [| x l IH]; [reflexivity |].
  cbn [Registry.sorted_by_modified_desc fold_right].
  rewrite filter_insert_by_modified. cbn [filter].
  fold (Registry.sorted_by_modified_desc l). rewrite IH. reflexivity.
Qed.

(** The sort of [list_all_sessions] is stable: the sessions with one and the
    same [modified] come out in the order in which the adapters returned
    them.  The sessions of one Cursor store, which all carry the time of
    the file, keep the order of the listing. *)
Theorem list_all_sessions_stable
    (ClaudeCodeAdapter : Registry.adapter_class)
    (json_loads : string -> option json) (w : world)
    (project_filter : option string) (found : list (list SessionInfo)) :
  Forall2 (fun a ls => value (Registry.list_sessions a project_filter) = Ok ls)
    (Registry.get_all_adapters ClaudeCodeAdapter json_loads w) found ->
  exists out,
    value (Registry.list_all_sessions ClaudeCodeAdapter json_loads w project_filter) =
      Ok out /\
    forall t : Z,
      filter (fun s => (modified s =? t)%Z) out =
      filter (fun s => (modified s =? t)%Z) (List.concat found).
Proof.
  intros H. exists (Registry.sorted_by_modified_desc (List.concat found)). split.
  - unfold Registry.list_all_sessions. rewrite value_bindM.
    rewrite (for_each_extend_with _ _ _ _ H). reflexivity.
  - intros t. apply filter_sorted_by_modified_desc.
Qed.

Lemma list_all_sessions_stable_witness :
  exists out,
    value (Registry.list_all_sessions claude_available loads
             (world_of (ItemTable rows_chats)) None) = Ok out /\
    forall t : Z,
      filter (fun s => (modified s =? t)%Z) out =
      filter (fun s => (modified s =? t)%Z)
        (List.concat [[agent_session; newer_session]; [session_abc]]).
Proof.
  apply (list_all_sessions_stable claude_available loads
           (world_of (ItemTable rows_chats)) None).
  repeat constructor.
Defined.

(** [list_all_sessions] contains no exception: when the adapters before one
    return and that one raises, [list_all_sessions] raises the same
    exception and returns no session of the others. *)
Theorem list_all_sessions_propagates
    (ClaudeCodeAdapter : Registry.adapter_class)
    (json_loads : string -> option json) (w : world)
    (project_filter : option string)
    (before after : list Registry.SourceAdapter) (a : Registry.SourceAdapter)
    (found : list (list SessionInfo)) (e : exn) :
  Registry.get_all_adapters ClaudeCodeAdapter json_loads w = (before ++ a :: after)%list ->
  Forall2 (fun b ls => value (Registry.list_sessions b project_filter) = Ok ls)
    before found ->
  value (Registry.list_sessions a project_filter) = Raise e ->
  value (Registry.list_all_sessions ClaudeCodeAdapter json_loads w project_filter) =
  Raise e.
Proof.
  intros Hall Hbefore Ha.
  unfold Registry.list_all_sessions. rewrite value_bindM, Hall, value_for_eachM.
  rewrite for_each_app. rewrite <- value_for_eachM.
  rewrite (for_each_extend_with _ _ _ _ Hbefore). cbn [bind for_each].
  unfold Registry.extend_with at 1. rewrite value_bindM, Ha. reflexivity.
Qed.

Lemma list_all_sessions_propagates_witness :
  value (Registry.list_all_sessions claude_available loads
           (world_of (ItemTable rows_tabs_number)) None) = Raise TypeError.
Proof.
  refine (list_all_sessions_propagates claude_available loads
            (world_of (ItemTable rows_tabs_number)) None
            [Registry.instantiate claude_available] []
            (Registry.instantiate
               (Registry.CursorAdapter loads (world_of (ItemTable rows_tabs_number))))
            [[agent_session; newer_session]] TypeError eq_refl _ eq_refl).
  repeat constructor.
Defined.

(** ** _get_adapter_for_session *)

(** The adapter of a session is the first available adapter whose name is
    the source of the session.  When Claude Code's adapter is not called
    [cursor], a session that the Cursor adapter lists is read with the
    Cursor adapter.  When no available adapter has the name, the adapter is
    a new [ClaudeCodeAdapter()], whether that class is available or not. *)
Theorem _get_adapter_for_session_dispatch
    (ClaudeCodeAdapter : Registry.adapter_class)
    (json_loads : string -> option json) (w : world) (session : SessionInfo) :
  (Registry.name (Registry.instantiate ClaudeCodeAdapter) <> "cursor" ->
   forall project_filter out,
     value (Cursor.list_sessions json_loads w project_filter) = Ok out ->
     In session out ->
     Cli._get_adapter_for_session ClaudeCodeAdapter json_loads w session =
     Registry.instantiate (Registry.CursorAdapter json_loads w)) /\
  ((forall a, In a (Registry.get_all_adapters ClaudeCodeAdapter json_loads w) ->
              Registry.name a <> source session) ->
   Cli._get_adapter_for_session ClaudeCodeAdapter json_loads w session =
   Registry.instantiate ClaudeCodeAdapter).
Proof.
  split.
  - intros Hname pf out Hout Hin.
    destruct (proj1 (Forall_forall _ _) (list_sessions_listed _ _ _ _ Hout) session Hin)
      as (e & _ & _ & st & folder & cd & sd & H).
    destruct H as (_ & _ & _ & _ & _ & _ & Hsrc & _).
    assert (Hex : storage_exists w = true).
    { unfold Cursor.list_sessions in Hout. destruct (storage_exists w); [reflexivity |].
      cbn in Hout. inversion Hout; subst. contradiction. }
    unfold Cli._get_adapter_for_session, Registry.get_all_adapters, Registry.add_available.
    cbn [fold_left].
    change (Registry.is_available (Registry.CursorAdapter json_loads w))
      with (storage_exists w).
    rewrite Hex, Hsrc. apply String.eqb_neq in Hname.
    destruct (Registry.is_available ClaudeCodeAdapter); cbn [app Cli.next_matching];
      [rewrite Hname |]; reflexivity.
  - intros Hnone. unfold Cli._get_adapter_for_session.
    induction (Registry.get_all_adapters ClaudeCodeAdapter json_loads w) as [| a l IH];
      [reflexivity |].
    cbn [Cli.next_matching].
    assert (Ha : (Registry.name a =? source session) = false).
    { apply String.eqb_neq. apply Hnone. now left. }
    rewrite Ha. apply IH. intros b Hb. apply Hnone. now right.
Qed.

Lemma _get_adapter_for_session_dispatch_witness :
  Cli._get_adapter_for_session claude_available loads
    (world_of (ItemTable rows_chats)) session_abc =
  Registry.instantiate (Registry.CursorAdapter loads (world_of (ItemTable rows_chats))).
Proof.
  refine (proj1 (_get_adapter_for_session_dispatch claude_available loads
                   (world_of (ItemTable rows_chats)) session_abc)
            _ None [session_abc] eq_refl (or_introl eq_refl)).
  discriminate.
Defined.

(** ** The exceptions that escape *)

Lemma raises_only_bind {A B : Type} (P : exn -> Prop) (r : result A) (k : A -> result B) :
  raises_only P r -> (forall a, raises_only P (k a)) -> raises_only P (bind r k).
Proof. destruct r as [a | e]; simpl; auto. Qed.

Lemma raises_only_for_each {A S : Type} (P : exn -> Prop) (body : A -> S -> result S)
    (l : list A) :
  (forall x s, raises_only P (body x s)) -> forall s, raises_only P (for_each body l s).
Proof.
  intros Hbody. induction l as [| x l IH]; intros s; cbn [for_each]; [exact I |].
  apply raises_only_bind; [apply Hbody | exact IH].
Qed.

Lemma raises_only_impl {A : Type} (P Q : exn -> Prop) (r : result A) :
  (forall e, P e -> Q e) -> raises_only P r -> raises_only Q r.
Proof. destruct r; simpl; auto. Qed.

Lemma set_item_raises (d : Dict.t) (k v : json) :
  raises_only shape_error (Dict.set_item d k v).
Proof. unfold Dict.set_item. destruct (Dict.hashable k); simpl; [exact I | now right]. Qed.

Lemma scan_document_raises (key : string) (data : json) (d : Dict.t) :
  raises_only shape_error (Cursor.scan_document key data d).
Proof.
  assert (Hchat : forall prefix ic a, raises_only shape_error (Cursor.scan_chat prefix ic a)).
  { intros prefix [i chat] a. unfold Cursor.scan_chat.
    destruct chat; try exact I. destruct (Py.truthy _); [apply set_item_raises | exact I]. }
  assert (Hcomp : forall kc a, raises_only shape_error (Cursor.scan_composer kc a)).
  { intros [cid comp] a. unfold Cursor.scan_composer.
    destruct comp; exact I. }
  unfold Cursor.scan_document.
  destruct (key =? Cursor.chatdata_key).
  - destruct data as [| b | z | s | l | m]; try exact I.
    + now apply raises_only_for_each.
    + apply raises_only_bind.
      * destruct (Py.dict_get_default m "tabs" (JArr [])); simpl; try exact I; now right.
      * intros tabs. now apply raises_only_for_each.
  - destruct (key =? Cursor.composer_key); [| exact I].
    destruct data as [| b | z | s | l | m]; try exact I.
    apply raises_only_bind.
    + destruct (Py.dict_get_default m "composers" (JObj [])); simpl; try exact I; now left.
    + intros composers. now apply raises_only_for_each.
Qed.

Lemma _get_chat_data_raises (json_loads : string -> option json) (w : world) (p : string) :
  raises_only shape_error (value (Cursor._get_chat_data json_loads w p)).
Proof.
  rewrite _get_chat_data_value. destruct (db_at w p) as [| | rows]; try exact I.
  pose proof (raises_only_for_each shape_error (Cursor.scan_row json_loads)
                (filter (fun row => existsb (String.eqb (fst row)) Cursor.known_keys) rows))
    as H.
  specialize (H (fun row d => ltac:(
    destruct row as [key [text |]]; simpl; [| exact I];
    destruct (text =? ""); [exact I |];
    destruct (json_loads text); [apply scan_document_raises | exact I])) []).
  destruct (for_each _ _ _) as [d | e]; [exact I |].
  destruct e; simpl in *; try exact H; exact I.
Qed.

Lemma read_messages_raises (sd : json) :
  raises_only shape_error (Cursor.read_messages sd).
Proof.
  assert (Hrole : forall role, raises_only shape_error (Cursor._normalize_role role)).
  { intros role. destruct role; simpl; try exact I; now left. }
  assert (Hpart : forall role ts part a,
            raises_only shape_error (Cursor.append_part role ts part a)).
  { intros role ts part a. unfold Cursor.append_part.
    destruct part as [| b | z | s | l | p]; try exact I.
    - apply raises_only_bind; [apply Hrole | intros; exact I].
    - destruct (Py.eq_str _ "text"); [apply raises_only_bind; [apply Hrole | intros; exact I] |].
      destruct (Py.eq_str _ "tool_use"); [exact I |].
      destruct (Py.eq_str _ "tool_result"); exact I. }
  unfold Cursor.read_messages. destruct sd as [| b | z | s | l | d]; try (now left).
  apply raises_only_bind.
  - destruct (Py.dict_get_default d "messages" (JArr [])); simpl; try exact I; now right.
  - intros msgs. apply raises_only_for_each. intros msg a. unfold Cursor.append_message.
    destruct msg as [| b | z | s | l | m]; try (now left).
    destruct (Py.dict_get_default m "content" (JStr "")); try exact I.
    + apply raises_only_bind; [apply Hrole | intros; exact I].
    + now apply raises_only_for_each.
Qed.

(** No [sqlite3.Error] leaves the adapter: whatever the store and whatever
    [json.loads] gives, neither [read_session] nor [list_sessions] raises
    [sqlite3.Error]; the [except sqlite3.Error] of [_get_chat_data] takes
    every one that [connect] and the SELECT raise. *)
Theorem adapter_contains_sqlite_errors
    (json_loads : string -> option json) (w : world) (session : SessionInfo)
    (project_filter : option string) :
  raises_only (fun e => e <> SqliteError)
    (value (Cursor.read_session json_loads w session)) /\
  raises_only (fun e => e <> SqliteError)
    (value (Cursor.list_sessions json_loads w project_filter)).
Proof.
  split.
  - apply (raises_only_impl shape_error); [intros e [-> | ->]; discriminate |].
    unfold Cursor.read_session. rewrite value_bindM.
    apply raises_only_bind; [apply _get_chat_data_raises |].
    intros cd. rewrite value_lift.
    destruct (Dict.is_empty cd); [exact I |].
    unfold Dict.contains, Dict.get_item.
    destruct (Dict.hashable (session_id session)); cbn [bind]; [| now right].
    destruct (Dict.find cd (session_id session)); cbn [bind negb]; [| exact I].
    apply read_messages_raises.
  - assert (Hne : forall e, shape_error e -> e <> SqliteError)
      by (intros e [-> | ->]; discriminate).
    unfold Cursor.list_sessions. destruct (storage_exists w); [| exact I]. cbn [negb].
    rewrite value_for_eachM. apply raises_only_for_each. intros e acc.
    rewrite scan_workspace_value.
    destruct (negb (is_dir e)); [exact I |]. cbv zeta.
    destruct (files w _) as [st |]; [| exact I].
    apply raises_only_bind.
    { unfold Cursor._get_workspace_folder.
      destruct (workspace_json e) as [text |]; [| exact I].
      destruct (json_loads text) as [[| b | z | s | l | data] |]; try discriminate;
        try exact I.
      destruct (Py.truthy _); [| exact I].
      destruct (Py.dict_get data "folder"); try discriminate.
      destruct (Py.startswith _ _); exact I. }
    intros folder. destruct (Cursor.filtered_out _ _); [exact I |].
    apply raises_only_bind.
    { eapply raises_only_impl; [exact Hne | apply _get_chat_data_raises]. }
    intros cd. destruct (Dict.is_empty cd); [exact I |].
    apply raises_only_for_each. intros [sid sd] a. unfold Cursor.append_session.
    apply raises_only_bind; [| intros; exact I].
    unfold Cursor._extract_summary. destruct sd as [| b | z | s | l | d]; try discriminate.
    destruct (Py.truthy _); [exact I |].
    destruct (Py.truthy _); [| exact I].
    apply raises_only_bind.
    + destruct (Py.dict_get_default d "messages" (JArr [])) as [| b | z | [| c s] | [| x l] | m];
        simpl; try discriminate; exact I.
    + intros first_msg. destruct first_msg as [| b | z | s | l | m]; try discriminate.
      destruct (Py.dict_get_default m "content" (JStr "")); exact I.
Qed.

(** ** list_sessions: entries that give nothing, and a descriptor that raises *)

Lemma for_each_ext {A S : Type} (f g : A -> S -> result S) (l : list A) (s : S) :
  (forall x a, f x a = g x a) -> for_each f l s = for_each g l s.
Proof.
  intros H. revert s. induction l as [| x l IH]; intros s; cbn [for_each]; [reflexivity |].
  rewrite H. destruct (g x s); cbn [bind]; [apply IH | reflexivity].
Qed.

(** An entry of the storage directory that is not a directory, that has no
    [state.vscdb], or whose store yields no session (an unopenable,
    unreadable or empty one, its descriptor not raising) adds nothing to the
    listing and does not make it fail: the listing is the one of the
    storage without the entry. *)
Theorem list_sessions_skips_entry
    (json_loads : string -> option json) (dir : string)
    (vscdbs : string -> option store) (before after : list dir_entry) (e : dir_entry)
    (project_filter : option string) :
  let w := mkWorld dir true (before ++ e :: after) vscdbs in
  (is_dir e = false \/
   vscdbs (vscdb_path w e) = None \/
   ((exists folder, Cursor._get_workspace_folder json_loads e = Ok folder) /\
    value (Cursor._get_chat_data json_loads w (vscdb_path w e)) = Ok [])) ->
  value (Cursor.list_sessions json_loads w project_filter) =
  value (Cursor.list_sessions json_loads (mkWorld dir true (before ++ after) vscdbs)
           project_filter).
Proof.
  intros w Hskip.
  unfold Cursor.list_sessions. cbn [storage_exists negb iterdir w].
  rewrite !value_for_eachM.
  rewrite (for_each_ext _
             (fun x a => value (Cursor.scan_workspace json_loads w project_filter x a))
             (before ++ after) []) by reflexivity.
  rewrite !for_each_app. cbn [for_each].
  destruct (for_each _ before []) as [acc | ex]; cbn [bind]; [| reflexivity].
  assert (He : value (Cursor.scan_workspace json_loads w project_filter e acc) = Ok acc).
  { rewrite scan_workspace_value. fold (vscdb_path w e).
    destruct Hskip as [Hd | [Hf | [[folder Hfolder] Hcd]]].
    - now rewrite Hd.
    - destruct (negb (is_dir e)); [reflexivity |]. cbv zeta.
      change (files w (vscdb_path w e)) with (vscdbs (vscdb_path w e)). now rewrite Hf.
    - destruct (negb (is_dir e)); [reflexivity |]. cbv zeta.
      destruct (files w (vscdb_path w e)); [| reflexivity].
      rewrite Hfolder. cbn [bind].
      destruct (Cursor.filtered_out _ _); [reflexivity |].
      rewrite Hcd. reflexivity. }
  rewrite He. reflexivity.
Qed.

Lemma list_sessions_skips_entry_witness :
  value (Cursor.list_sessions loads
           (mkWorld root true [mkDirEntry "h1" true (Some "descriptor")]
              (fun _ => Some (mkStore Unreadable 0 0))) None) =
  value (Cursor.list_sessions loads
           (mkWorld root true [] (fun _ => Some (mkStore Unreadable 0 0))) None).
Proof.
  refine (list_sessions_skips_entry loads root (fun _ => Some (mkStore Unreadable 0 0))
            [] [] (mkDirEntry "h1" true (Some "descriptor")) None _).
  right. right. split; [eexists; reflexivity | reflexivity].
Defined.

(** A descriptor that decodes to something that is no object, in a
    directory with a [state.vscdb], makes [list_sessions] raise
    [AttributeError] once the entries before it are done, whatever the
    filter: the label is read before the filter is applied. *)
Theorem list_sessions_raises_on_descriptor
    (json_loads : string -> option json) (w : world) (project_filter : option string)
    (before after : list dir_entry) (e : dir_entry) (text : string) (data : json)
    (acc : list SessionInfo) :
  storage_exists w = true ->
  iterdir w = (before ++ e :: after)%list ->
  value (for_eachM (Cursor.scan_workspace json_loads w project_filter) before []) = Ok acc ->
  is_dir e = true ->
  files w (vscdb_path w e) <> None ->
  workspace_json e = Some text ->
  json_loads text = Some data ->
  is_dict data = false ->
  value (Cursor.list_sessions json_loads w project_filter) = Raise AttributeError.
Proof.
  intros Hex Hit Hbefore Hdir Hfile Htext Hdata Hshape.
  unfold Cursor.list_sessions. rewrite Hex, Hit. cbn [negb].
  rewrite value_for_eachM, for_each_app, <- value_for_eachM, Hbefore. cbn [bind for_each].
  rewrite scan_workspace_value, Hdir. cbn [negb]. cbv zeta. fold (vscdb_path w e).
  destruct (files w (vscdb_path w e)); [| contradiction].
  unfold Cursor._get_workspace_folder. rewrite Htext, Hdata.
  destruct data; try discriminate; reflexivity.
Qed.

Lemma list_sessions_raises_on_descriptor_witness :
  value (Cursor.list_sessions loads
           (mkWorld root true [mkDirEntry "h1" true (Some "chats")]
              (fun _ => Some (mkStore (ItemTable []) 0 0))) (Some "/srv/other")) =
  Raise AttributeError.
Proof.
  exact (list_sessions_raises_on_descriptor loads
           (mkWorld root true [mkDirEntry "h1" true (Some "chats")]
              (fun _ => Some (mkStore (ItemTable []) 0 0)))
           (Some "/srv/other") [] [] (mkDirEntry "h1" true (Some "chats")) "chats"
           (JArr [chat_abc]) [] eq_refl eq_refl eq_refl eq_refl
           (fun H => ltac:(discriminate H)) eq_refl eq_refl eq_refl).
Defined.

(** ** get_sessions_for_cwd *)

Lemma for_each_invariant_in {A S : Type} (P : S -> Prop) (body : A -> S -> result S)
    (l : list A) :
  (forall x s s', In x l -> P s -> body x s = Ok s' -> P s') ->
  forall s s', P s -> for_each body l s = Ok s' -> P s'.
Proof.
  induction l as [| x l IH]; intros Hbody s s' Hs; cbn [for_each].
  - intros H; inversion H; subst. exact Hs.
  - destruct (body x s) as [s1 |] eqn:Hx; cbn [bind]; [| discriminate].
    apply IH.
    + intros y a a' Hy. apply Hbody. now right.
    + eapply Hbody; [now left | exact Hs | exact Hx].
Qed.

(** Where Claude Code's adapter, when it is available, keeps to the filter,
    every session of [get_sessions_for_cwd] has the working directory as its
    project: the Cursor adapter keeps to the filter, and the sort changes no
    session. *)
Theorem get_sessions_for_cwd_project
    (ClaudeCodeAdapter : Registry.adapter_class)
    (json_loads : string -> option json) (w : world) (cwd : string)
    (out : list SessionInfo) :
  cwd <> "" ->
  (Registry.is_available ClaudeCodeAdapter = true ->
   forall ls,
     value (Registry.list_sessions (Registry.instantiate ClaudeCodeAdapter) (Some cwd)) =
       Ok ls ->
     Forall (fun s => project s = cwd) ls) ->
  value (Registry.get_sessions_for_cwd ClaudeCodeAdapter json_loads w cwd) = Ok out ->
  Forall (fun s => project s = cwd) out.
Proof.
  intros Hcwd Hclaude.
  assert (Hin : forall a, In a (Registry.get_all_adapters ClaudeCodeAdapter json_loads w) ->
            forall ls, value (Registry.list_sessions a (Some cwd)) = Ok ls ->
                       Forall (fun s => project s = cwd) ls).
  { intros a Ha ls Hls.
    unfold Registry.get_all_adapters, Registry.add_available in Ha. cbn [fold_left] in Ha.
    assert (Hcursor : a = Registry.instantiate (Registry.CursorAdapter json_loads w) ->
              Forall (fun s => project s = cwd) ls).
    { intros ->. exact (list_sessions_filter_project json_loads w cwd ls Hcwd Hls). }
    destruct (Registry.is_available ClaudeCodeAdapter) eqn:Hav;
      destruct (Registry.is_available (Registry.CursorAdapter json_loads w));
      cbn [app In] in Ha; intuition; subst; auto. }
  unfold Registry.get_sessions_for_cwd, Registry.list_all_sessions.
  rewrite value_bindM, value_for_eachM.
  destruct (for_each _ _ _) as [sessions |] eqn:Hloop; cbn [bind]; [| discriminate].
  rewrite value_retM. intros H; inversion H; subst. clear H.
  eapply Permutation_Forall; [symmetry; apply sorted_by_modified_desc_perm |].
  revert Hloop.
  apply (for_each_invariant_in (Forall (fun s => project s = cwd))); [| constructor].
  intros a acc acc' Ha Hacc.
  unfold Registry.extend_with. rewrite value_bindM.
  destruct (value (Registry.list_sessions a (Some cwd))) as [ls |] eqn:Hls; cbn [bind];
    [| discriminate].
  rewrite value_retM. intros H; inversion H; subst. clear H.
  apply Forall_app. split; [exact Hacc | exact (Hin a Ha ls Hls)].
Qed.

Lemma get_sessions_for_cwd_project_witness :
  Forall (fun s => project s = "/home/u/proj") [newer_session; session_abc; agent_session].
Proof.
  refine (get_sessions_for_cwd_project claude_available loads
            (world_of (ItemTable rows_chats)) "/home/u/proj" _ _ _ eq_refl).
  - discriminate.
  - intros _ ls Hls. inversion Hls; subst. repeat constructor.
Defined.

(** ** read_session: the empty results *)

(** [read_session] returns the empty list, and raises nothing, when the
    store of the session cannot be opened or queried, when its file is gone
    (SQLite then makes an empty database, on which the query fails), and
    when the store has sessions but none under the id of the session. *)
Theorem read_session_returns_empty
    (json_loads : string -> option json) (w : world) (session : SessionInfo) :
  (db_at w (path session) = Unopenable \/ db_at w (path session) = Unreadable ->
   value (Cursor.read_session json_loads w session) = Ok []) /\
  (files w (path session) = None ->
   value (Cursor.read_session json_loads w session) = Ok []) /\
  (forall chat_data,
     value (Cursor._get_chat_data json_loads w (path session)) = Ok chat_data ->
     Dict.hashable (session_id session) = true ->
     Dict.find chat_data (session_id session) = None ->
     value (Cursor.read_session json_loads w session) = Ok []).
Proof.
  split; [| split].
  - apply read_session_store_fault.
  - intros Hgone. apply read_session_store_fault. right.
    unfold db_at. now rewrite Hgone.
  - intros chat_data. apply read_session_absent.
Qed.

Lemma read_session_returns_empty_witness :
  value (Cursor.read_session loads (world_of Unreadable) session_abc) = Ok [] /\
  value (Cursor.read_session loads (world_of (ItemTable rows_composers)) session_abc) = Ok [].
Proof.
  split.
  - apply (proj1 (read_session_returns_empty loads (world_of Unreadable) session_abc)).
    right. reflexivity.
  - apply (proj2 (proj2 (read_session_returns_empty loads
                           (world_of (ItemTable rows_composers)) session_abc))
             [(JStr "composer-c1", composer_c1)]); reflexivity.
Defined.
